(** * SPY volatility analysis: a shallow embedding of the estimation core

    The development follows [spy_volatility_analysis.py]: the log-return
    column, the four volatility estimators and the per-year aggregation.

    Numbers.  numpy computes on IEEE binary64.  Here a value is either
    [NaN] (pandas' missing-value marker) or a finite real number: rounding
    and overflow are left out, and an operation whose IEEE result is not a
    finite number (division by zero, logarithm of a non-positive number,
    square root of a negative number) yields [NaN].  Infinities and signed
    zeros are therefore not represented.

    Frames.  A pandas [DataFrame] is a mutable object.  A function that
    assigns a column to its argument is modelled as a function that returns
    the new state of that object. *)

From Stdlib Require Import String Reals Lra Lia ZArith Bool List.
From Stdlib Require Import Sorted Permutation.
Import ListNotations.
Local Open Scope R_scope.

(** ** Numbers *)

Inductive float64 : Type :=
| NaN
| Fin (r : R).

Definition lift2 (f : R -> R -> R) (a b : float64) : float64 :=
  match a, b with
  | Fin x, Fin y => Fin (f x y)
  | _, _ => NaN
  end.

Definition fadd : float64 -> float64 -> float64 := lift2 Rplus.
Definition fsub : float64 -> float64 -> float64 := lift2 Rminus.
Definition fmul : float64 -> float64 -> float64 := lift2 Rmult.

Definition fdiv (a b : float64) : float64 :=
  match a, b with
  | Fin x, Fin y => if Req_dec_T y 0 then NaN else Fin (x / y)
  | _, _ => NaN
  end.

(** [x ** 2] *)
Definition fsquare (a : float64) : float64 := fmul a a.

Module np.

Definition log (a : float64) : float64 :=
  match a with
  | Fin x => if Rlt_dec 0 x then Fin (ln x) else NaN
  | NaN => NaN
  end.

Definition sqrt (a : float64) : float64 :=
  match a with
  | Fin x => if Rle_dec 0 x then Fin (R_sqrt.sqrt x) else NaN
  | NaN => NaN
  end.

Definition abs (a : float64) : float64 :=
  match a with
  | Fin x => Fin (Rabs x)
  | NaN => NaN
  end.

End np.

(** ** Series: the values of a pandas column, by position *)

Definition Series := list float64.

Inductive exn : Type :=
| KeyError (column : string)
| IndexError.

Definition Py (A : Type) : Type := (exn + A)%type.

Definition ret {A} (a : A) : Py A := inr a.
Definition raise {A} (e : exn) : Py A := inl e.
Definition bind {A B} (c : Py A) (k : A -> Py B) : Py B :=
  match c with
  | inl e => inl e
  | inr a => k a
  end.

Declare Scope py_scope.
Delimit Scope py_scope with py.
Notation "x <- c ;; k" := (bind c (fun x => k))
  (at level 61, c at next level, right associativity) : py_scope.

Fixpoint zip_with {A B C} (f : A -> B -> C) (xs : list A) (ys : list B) : list C :=
  match xs, ys with
  | x :: xs', y :: ys' => f x y :: zip_with f xs' ys'
  | _, _ => []
  end.

(** The non-missing values, in order. *)
Fixpoint dropna (s : Series) : list R :=
  match s with
  | [] => []
  | NaN :: t => dropna t
  | Fin r :: t => r :: dropna t
  end.

Definition Rsum (l : list R) : R := fold_right Rplus 0 l.

Fixpoint Rmaximum (x : R) (l : list R) : R :=
  match l with
  | [] => x
  | y :: t => Rmaximum (Rmax x y) t
  end.

Fixpoint Rminimum (x : R) (l : list R) : R :=
  match l with
  | [] => x
  | y :: t => Rminimum (Rmin x y) t
  end.

Module pd.

(** [s.shift(1)]: every value moves one position down, the first
    position becomes missing and the last value falls off. *)
Definition shift (s : Series) : Series :=
  match s with
  | [] => []
  | _ :: _ => NaN :: removelast s
  end.

(** [s.mean()], missing values skipped. *)
Definition mean (s : Series) : float64 :=
  let values := dropna s in
  let count := length values in
  if (count =? 0)%nat then NaN
  else Fin (Rsum values / INR count).

(** [s.std()]: missing values skipped, [ddof = 1]. *)
Definition std (s : Series) : float64 :=
  let values := dropna s in
  let count := length values in
  let ddof := 1%nat in
  if (count <=? ddof)%nat then NaN
  else
    let avg := Rsum values / INR count in
    let sqr := Rsum (map (fun x => (avg - x) * (avg - x)) values) in
    np.sqrt (Fin (sqr / INR (count - ddof))).

(** [s.max()] and [s.min()], missing values skipped. *)
Definition max (s : Series) : float64 :=
  match dropna s with
  | [] => NaN
  | x :: t => Fin (Rmaximum x t)
  end.

Definition min (s : Series) : float64 :=
  match dropna s with
  | [] => NaN
  | x :: t => Fin (Rminimum x t)
  end.

(** [pd.concat([a, b, c], axis=1).max(axis=1)]: the row-wise maximum of
    three aligned columns, missing values skipped. *)
Fixpoint concat3_max (a b c : Series) : Series :=
  match a, b, c with
  | x :: a', y :: b', z :: c' => max [x; y; z] :: concat3_max a' b' c'
  | _, _, _ => []
  end.

(** The observations of the trailing window of [w] positions that ends
    at position [i]. *)
Definition window (w i : nat) (s : Series) : Series :=
  skipn (i + 1 - w) (firstn (i + 1) s).

(** [s.rolling(window=w).mean()]: [min_periods] defaults to [w], so a
    position is missing unless its window holds [w] non-missing values. *)
Definition rolling_mean (w : nat) (s : Series) : Series :=
  map (fun i =>
         let obs := dropna (window w i s) in
         let nobs := length obs in
         if (w <=? nobs)%nat
         then fdiv (Fin (Rsum obs)) (Fin (INR nobs))
         else NaN)
      (seq 0 (length s)).

(** [s.iloc[0]] and [s.iloc[-1]] *)
Definition iloc_first (s : Series) : Py float64 :=
  match s with
  | [] => raise IndexError
  | x :: _ => ret x
  end.

Definition iloc_last (s : Series) : Py float64 :=
  match s with
  | [] => raise IndexError
  | x :: t => ret (last t x)
  end.

End pd.

(** ** Frames *)

(** The index of the frame holds timestamps; the core reads their [year]
    only. *)
Record Timestamp : Type := mkTimestamp {
  ts_year : Z;
  ts_month : Z;
  ts_day : Z
}.

(** The price columns come with the loaded table.  [returns] and [year]
    are the columns the core assigns itself: each is absent until then. *)
Record DataFrame : Type := mkDataFrame {
  index : list Timestamp;
  open : Series;
  high : Series;
  low : Series;
  close : Series;
  returns : option Series;
  year : option (list Z)
}.

(** pandas keeps every column as long as the index. *)
Definition well_formed (df : DataFrame) : Prop :=
  length (open df) = length (index df) /\
  length (high df) = length (index df) /\
  length (low df) = length (index df) /\
  length (close df) = length (index df) /\
  (forall r, returns df = Some r -> length r = length (index df)) /\
  (forall ys, year df = Some ys -> length ys = length (index df)).

(** [len(df)] *)
Definition len (df : DataFrame) : nat := length (index df).

(** [df['returns'] = s] and [df['year'] = ys], in place. *)
Definition set_returns (df : DataFrame) (s : Series) : DataFrame :=
  mkDataFrame (index df) (open df) (high df) (low df) (close df)
              (Some s) (year df).

Definition set_year (df : DataFrame) (ys : list Z) : DataFrame :=
  mkDataFrame (index df) (open df) (high df) (low df) (close df)
              (returns df) (Some ys).

(** [df['returns']] *)
Definition getitem_returns (df : DataFrame) : Py Series :=
  match returns df with
  | Some s => ret s
  | None => raise (KeyError "returns")
  end.

(** [df['year']] *)
Definition getitem_year (df : DataFrame) : Py (list Z) :=
  match year df with
  | Some ys => ret ys
  | None => raise (KeyError "year")
  end.

(** Boolean indexing, [df[mask]]: the rows at which the mask holds. *)
Fixpoint select {A} (mask : list bool) (xs : list A) : list A :=
  match mask, xs with
  | b :: mask', x :: xs' => if b then x :: select mask' xs' else select mask' xs'
  | _, _ => []
  end.

Definition select_rows (mask : list bool) (df : DataFrame) : DataFrame :=
  mkDataFrame (select mask (index df))
              (select mask (open df)) (select mask (high df))
              (select mask (low df)) (select mask (close df))
              (option_map (select mask) (returns df))
              (option_map (select mask) (year df)).

(** ** The core *)

Definition calculate_returns (df : DataFrame) : DataFrame :=
  set_returns df
    (map np.log (zip_with fdiv (close df) (pd.shift (close df)))).

Definition calculate_realized_volatility
    (returns : Series) (annualize : bool) : float64 :=
  let vol := pd.std returns in
  if annualize then fmul vol (np.sqrt (Fin 252)) else vol.

Definition calculate_parkinson_volatility
    (df : DataFrame) (annualize : bool) : float64 :=
  let hl_ratio := map np.log (zip_with fdiv (high df) (low df)) in
  let vol :=
    np.sqrt (fmul (fdiv (Fin 1) (fmul (Fin 4) (np.log (Fin 2))))
                  (pd.mean (map fsquare hl_ratio))) in
  if annualize then fmul vol (np.sqrt (Fin 252)) else vol.

Definition calculate_garman_klass_volatility
    (df : DataFrame) (annualize : bool) : float64 :=
  let hl := map fsquare (map np.log (zip_with fdiv (high df) (low df))) in
  let co := map fsquare (map np.log (zip_with fdiv (close df) (open df))) in
  let vol :=
    np.sqrt (fsub (fmul (Fin 0.5) (pd.mean hl))
                  (fmul (fsub (fmul (Fin 2) (np.log (Fin 2))) (Fin 1))
                        (pd.mean co))) in
  if annualize then fmul vol (np.sqrt (Fin 252)) else vol.

Definition true_range (df : DataFrame) : Series :=
  let high_low := zip_with fsub (high df) (low df) in
  let high_close := map np.abs (zip_with fsub (high df) (pd.shift (close df))) in
  let low_close := map np.abs (zip_with fsub (low df) (pd.shift (close df))) in
  pd.concat3_max high_low high_close low_close.

Definition calculate_atr (df : DataFrame) (period : nat) : float64 :=
  let atr := pd.rolling_mean period (true_range df) in
  pd.mean atr.

(** One row of the summary table: the [metrics] dictionary. *)
Record YearSummary : Type := mkYearSummary {
  Year : Z;
  Trading_Days : nat;
  Realized_Volatility : float64;
  Parkinson_Volatility : float64;
  Garman_Klass_Volatility : float64;
  Avg_Daily_Range : float64;
  Max_Daily_Return : float64;
  Min_Daily_Return : float64;
  Avg_ATR : float64;
  Annual_Return : float64
}.

(** [df['year'].unique()]: the distinct values, in order of first
    appearance. *)
Fixpoint unique (l : list Z) : list Z :=
  match l with
  | [] => []
  | x :: t => x :: filter (fun z => negb (z =? x)%Z) (unique t)
  end.

(** [sorted(...)]: ascending order. *)
Fixpoint insert (x : Z) (l : list Z) : list Z :=
  match l with
  | [] => [x]
  | y :: t => if (x <=? y)%Z then x :: l else y :: insert x t
  end.

Fixpoint sorted (l : list Z) : list Z :=
  match l with
  | [] => []
  | x :: t => insert x (sorted t)
  end.

Local Open Scope py_scope.

(** The body of the loop once the year has passed the length test. *)
Definition year_metrics (y : Z) (year_data : DataFrame) : Py YearSummary :=
  r_vol <- getitem_returns year_data ;;
  let daily_range :=
    map (fun x => fmul x (Fin 100))
        (zip_with fdiv (zip_with fsub (high year_data) (low year_data))
                  (close year_data)) in
  r_max <- getitem_returns year_data ;;
  r_min <- getitem_returns year_data ;;
  close_last <- pd.iloc_last (close year_data) ;;
  close_first <- pd.iloc_first (close year_data) ;;
  ret (mkYearSummary
         y
         (len year_data)
         (fmul (calculate_realized_volatility r_vol true) (Fin 100))
         (fmul (calculate_parkinson_volatility year_data true) (Fin 100))
         (fmul (calculate_garman_klass_volatility year_data true) (Fin 100))
         (pd.mean daily_range)
         (fmul (pd.max r_max) (Fin 100))
         (fmul (pd.min r_min) (Fin 100))
         (calculate_atr year_data 14)
         (fmul (fsub (fdiv close_last close_first) (Fin 1)) (Fin 100))).

(** [df[df['year'] == y].copy()], where [ys] is the [year] column as read
    from [df]; the loop leaves the frame alone, so every pass reads the
    same column. *)
Definition year_slice (df : DataFrame) (ys : list Z) (y : Z) : DataFrame :=
  select_rows (map (fun z => (z =? y)%Z) ys) df.

(** The [for] loop over the years, with [results] the list built so far. *)
Fixpoint year_loop (df : DataFrame) (ys : list Z) (years : list Z)
    (results : list YearSummary) : Py (list YearSummary) :=
  match years with
  | [] => ret results
  | y :: rest =>
      let year_data := year_slice df ys y in
      if (len year_data <? 10)%nat then year_loop df ys rest results
      else
        metrics <- year_metrics y year_data ;;
        year_loop df ys rest (results ++ [metrics])
  end.

(** The frame after the call, and the outcome of the call: the summary
    table or the exception that ended it. *)
Definition analyze_volatility_by_year (df : DataFrame)
    : DataFrame * Py (list YearSummary) :=
  let df := set_year df (map ts_year (index df)) in
  (df,
   ys <- getitem_year df ;;
   year_loop df ys (sorted (unique ys)) []).

Local Close Scope py_scope.

(** ** Reference definitions, in the words of the specification *)

(** The sample standard deviation of [xs] about its own mean, with the
    [N - 1] denominator. *)
Definition sample_mean (xs : list R) : R := Rsum xs / INR (length xs).

Definition sample_std (xs : list R) : R :=
  sqrt (Rsum (map (fun x => Rsqr (x - sample_mean xs)) xs)
        / (INR (length xs) - 1)).

(** A column paired with its own shift: each value meets its predecessor. *)
Fixpoint adjacent {A B} (f : A -> A -> B) (prev : A) (l : list A) : list B :=
  match l with
  | [] => []
  | x :: t => f x prev :: adjacent f x t
  end.

(** The number of rows of the year column that carry the year [y], and
    the sufficiency test of the aggregator. *)
Definition trading_days (ys : list Z) (y : Z) : nat :=
  count_occ Z.eq_dec ys y.

Definition qualifies (ys : list Z) (y : Z) : bool :=
  (10 <=? trading_days ys y)%nat.

(** The years of the summary table: the years of the index that pass the
    length test, in ascending order. *)
Definition qualifying_years (ys : list Z) : list Z :=
  filter (qualifies ys) (sorted (unique ys)).

(** The year of each row, as [df.index.year] reads it. *)
Definition index_years (df : DataFrame) : list Z :=
  map ts_year (index df).

(** The frame the loop runs on: the caller's frame with its year column. *)
Definition with_years (df : DataFrame) : DataFrame :=
  set_year df (index_years df).

(** Dates in calendar order, and the test that an index is strictly
    ascending: sorted by date with no date twice. *)
Definition ts_ltb (a b : Timestamp) : bool :=
  ((ts_year a <? ts_year b)
   || ((ts_year a =? ts_year b)
       && ((ts_month a <? ts_month b)
           || ((ts_month a =? ts_month b) && (ts_day a <? ts_day b)))))%Z.

Fixpoint strictly_ascending (idx : list Timestamp) : bool :=
  match idx with
  | [] => true
  | a :: t =>
      match t with
      | [] => true
      | b :: _ => ts_ltb a b && strictly_ascending t
      end
  end.

(** A bar of the specification: a date and four real prices.  [frame_of]
    is the frame a loader hands to the core for a series of such bars. *)
Record Bar : Type := mkBar {
  bar_time : Timestamp;
  bar_open : R;
  bar_high : R;
  bar_low : R;
  bar_close : R
}.

Definition frame_of (bars : list Bar) : DataFrame :=
  mkDataFrame (map bar_time bars)
              (map (fun b => Fin (bar_open b)) bars)
              (map (fun b => Fin (bar_high b)) bars)
              (map (fun b => Fin (bar_low b)) bars)
              (map (fun b => Fin (bar_close b)) bars)
              None None.

(** The expression under the square root of the Garman-Klass estimator,
    on bars with real prices. *)
Definition gk_radicand (bars : list Bar) : R :=
  0.5 * sample_mean (map (fun b => Rsqr (ln (bar_high b / bar_low b))) bars)
  - (2 * ln 2 - 1)
    * sample_mean (map (fun b => Rsqr (ln (bar_close b / bar_open b))) bars).

Definition positive_prices (b : Bar) : Prop :=
  0 < bar_open b /\ 0 < bar_high b /\ 0 < bar_low b /\ 0 < bar_close b.

(** The true range of a bar that follows a bar with close [prev_close],
    and the true ranges of a window: the first bar has no previous close
    and its true range is its high minus its low. *)
Definition true_range_after (prev_close : R) (b : Bar) : R :=
  Rmax (bar_high b - bar_low b)
       (Rmax (Rabs (bar_high b - prev_close))
             (Rabs (bar_low b - prev_close))).

Fixpoint true_ranges_from (prev_close : R) (bars : list Bar) : list R :=
  match bars with
  | [] => []
  | b :: t => true_range_after prev_close b :: true_ranges_from (bar_close b) t
  end.

Definition true_ranges (bars : list Bar) : list R :=
  match bars with
  | [] => []
  | b :: t => (bar_high b - bar_low b) :: true_ranges_from (bar_close b) t
  end.

(** The trailing moving average over [period] values: one value for each
    run of [period] consecutive values, the mean of the run. *)
Definition moving_averages (period : nat) (xs : list R) : list R :=
  map (fun k => sample_mean (firstn period (skipn k xs)))
      (seq 0 (length xs + 1 - period)).

(** The mean of the moving-average series over the window; it is missing
    when the window has no full run. *)
Definition average_true_range (period : nat) (bars : list Bar) : float64 :=
  match moving_averages period (true_ranges bars) with
  | [] => NaN
  | ma => Fin (sample_mean ma)
  end.

(** ** Around the core: the year filter of [main] and the rolling series
    of the chart *)

(** [df[(df.index.year >= 2015) & (df.index.year <= 2025)]]: a new frame
    with the rows of the years 2015 to 2025. *)
Definition in_2015_2025 (t : Timestamp) : bool :=
  ((2015 <=? ts_year t) && (ts_year t <=? 2025))%Z.

Definition restrict_years (df : DataFrame) : DataFrame :=
  select_rows (map in_2015_2025 (index df)) df.

(** The data path of [main] from the loaded table to the summary table:
    the year filter, [calculate_returns], [analyze_volatility_by_year].
    Loading, printing, plotting and saving are left out.  The result is
    the frame after the calls and the outcome of the aggregator. *)
Definition main_data_path (df : DataFrame)
    : DataFrame * Py (list YearSummary) :=
  let df := restrict_years df in
  let df := calculate_returns df in
  analyze_volatility_by_year df.

(** [s.rolling(window=w).std()]: [min_periods] defaults to [w], and the
    standard deviation of a window is that of [s.std()]. *)
Definition rolling_std (w : nat) (s : Series) : Series :=
  map (fun i =>
         let win := pd.window w i s in
         if (w <=? length (dropna win))%nat then pd.std win else NaN)
      (seq 0 (length s)).

(** The values [create_visualizations] assigns to the column
    ['rolling_vol']:
    [df['returns'].rolling(window=30).std() * np.sqrt(252) * 100]. *)
Definition rolling_vol (returns : Series) : Series :=
  map (fun x => fmul (fmul x (np.sqrt (Fin 252))) (Fin 100))
      (rolling_std 30 returns).

(** ** Further reference definitions *)

(** The expression under the square root of the Parkinson estimator. *)
Definition parkinson_radicand (bars : list Bar) : R :=
  1 / (4 * ln 2)
  * sample_mean (map (fun b => Rsqr (ln (bar_high b / bar_low b))) bars).

(** The invariant of a bar: a positive low, and open and close between
    low and high. *)
Definition valid_bar (b : Bar) : Prop :=
  0 < bar_low b /\
  bar_low b <= bar_open b <= bar_high b /\
  bar_low b <= bar_close b <= bar_high b.

(** The log returns of the closes [t] that follow the close [c0]. *)
Definition log_returns (c0 : R) (t : list R) : list R :=
  adjacent (fun x prev => ln (x / prev)) c0 t.

(** The bars of the year [y], in the order of the series. *)
Definition year_bars (y : Z) (bars : list Bar) : list Bar :=
  filter (fun b => (ts_year (bar_time b) =? y)%Z) bars.

(** ** Sample inputs *)

Definition two_returns : Series := [NaN; Fin 1; Fin 3].

(** [n] bars of January of the year [y], on the days 1 to [n], each with
    open 100, high 110, low 90 and close 105. *)
Definition days (y : Z) (n : nat) : list Bar :=
  map (fun d => mkBar (mkTimestamp y 1 (Z.of_nat d)) 100 110 90 105) (seq 1 n).

(** Nine bars in 2020 and ten in 2021, after [calculate_returns]. *)
Definition short_then_ten : DataFrame :=
  calculate_returns (frame_of (days 2020 9 ++ days 2021 10)).

(** The same kind of series with the later year first. *)
Definition out_of_order : DataFrame :=
  calculate_returns (frame_of (days 2021 10 ++ days 2020 10)).

(** Ten bars of 2021 whose high and low both equal the open, 100, while
    the close is 200. *)
Definition crushed : list Bar :=
  map (fun d => mkBar (mkTimestamp 2021 1 (Z.of_nat d)) 100 100 100 200)
      (seq 1 10).


Definition first_of_2021 : Bar := mkBar (mkTimestamp 2021 1 1) 100 110 90 105.

Definition rest_of_2021 : list Bar :=
  map (fun d => mkBar (mkTimestamp 2021 1 (Z.of_nat d)) 100 110 90 105)
      (seq 2 9).

(** A loaded table on which the core has not run yet. *)
Definition loaded : DataFrame := frame_of (days 2021 10).

(** Ten bars of 2021 that do not move: every price is 100. *)
Definition flat : list Bar :=
  map (fun d => mkBar (mkTimestamp 2021 1 (Z.of_nat d)) 100 100 100 100)
      (seq 1 10).

(** * Properties *)

(** ** Lists and sums *)

Lemma zip_with_removelast {A B} (f : A -> A -> B) (t : list A) (x : A) :
  zip_with f t (removelast (x :: t)) = adjacent f x t.
Proof.
  revert x; induction t as [|y t IH]; intros x; [reflexivity|].
  change (removelast (x :: y :: t)) with (x :: removelast (y :: t)).
  cbn [zip_with]. now rewrite IH.
Qed.

Lemma zip_with_shift {B} (f : float64 -> float64 -> B) (x : float64) (t : Series) :
  zip_with f (x :: t) (pd.shift (x :: t)) = f x NaN :: adjacent f x t.
Proof.
  change (zip_with f (x :: t) (pd.shift (x :: t)))
    with (f x NaN :: zip_with f t (removelast (x :: t))).
  now rewrite zip_with_removelast.
Qed.

Lemma zip_with_shift_other {B} (f : float64 -> float64 -> B)
    (a : float64) (s : Series) (x : float64) (t : Series) :
  length s = length t ->
  zip_with f (a :: s) (pd.shift (x :: t))
  = f a NaN :: zip_with f s (x :: t).
Proof.
  intros Hlen.
  change (zip_with f (a :: s) (pd.shift (x :: t)))
    with (f a NaN :: zip_with f s (removelast (x :: t))).
  f_equal.
  revert x s Hlen; induction t as [|y t IH]; intros x s Hlen.
  - destruct s; [reflexivity|discriminate].
  - destruct s as [|b s]; [discriminate|].
    change (removelast (x :: y :: t)) with (x :: removelast (y :: t)).
    cbn [zip_with]. f_equal. apply IH. now injection Hlen.
Qed.

Lemma adjacent_length {A B} (f : A -> A -> B) (l : list A) (prev : A) :
  length (adjacent f prev l) = length l.
Proof.
  revert prev; induction l as [|x t IH]; intros prev; simpl; [|rewrite IH]; reflexivity.
Qed.

Lemma adjacent_nth_error {A B} (f : A -> A -> B) (l : list A) (prev : A)
    (i : nat) (d : A) :
  (i < length l)%nat ->
  nth_error (adjacent f prev l) i
  = Some (f (nth i l d) (nth i (prev :: l) d)).
Proof.
  revert prev i; induction l as [|x t IH]; intros prev i Hi; simpl in Hi; [lia|].
  destruct i as [|i]; [reflexivity|].
  simpl nth_error. rewrite (IH x i) by lia. reflexivity.
Qed.

Lemma dropna_map_Fin (xs : list R) : dropna (map Fin xs) = xs.
Proof. induction xs as [|x t IH]; simpl; [|rewrite IH]; reflexivity. Qed.

Lemma Rsum_sqr_nonneg (f : R -> R) (xs : list R) :
  0 <= Rsum (map (fun x => f x * f x) xs).
Proof.
  induction xs as [|x t IH]; simpl; [lra|].
  pose proof (Rle_0_sqr (f x)) as H. unfold Rsqr in H. lra.
Qed.

Lemma sqrt_of_nonneg (x : R) : 0 <= x -> np.sqrt (Fin x) = Fin (sqrt x).
Proof.
  intros Hx. unfold np.sqrt. destruct (Rle_dec 0 x); [reflexivity|contradiction].
Qed.

Lemma sqrt_of_neg (x : R) : x < 0 -> np.sqrt (Fin x) = NaN.
Proof.
  intros Hx. unfold np.sqrt. destruct (Rle_dec 0 x); [lra|reflexivity].
Qed.

Lemma log_of_pos (x : R) : 0 < x -> np.log (Fin x) = Fin (ln x).
Proof.
  intros Hx. unfold np.log. destruct (Rlt_dec 0 x); [reflexivity|contradiction].
Qed.

Lemma fdiv_nonzero (x y : R) : y <> 0 -> fdiv (Fin x) (Fin y) = Fin (x / y).
Proof.
  intros Hy. unfold fdiv. destruct (Req_dec_T y 0); [contradiction|reflexivity].
Qed.

(** ** The pandas operations on small inputs *)

Example shift_moves_down :
  pd.shift [Fin 1; Fin 2; Fin 3] = [NaN; Fin 1; Fin 2].
Proof. reflexivity. Qed.

Example window_is_trailing :
  pd.window 3 4 [Fin 1; Fin 2; Fin 3; Fin 4; Fin 5; Fin 6]
  = [Fin 3; Fin 4; Fin 5].
Proof. reflexivity. Qed.

Example rolling_mean_needs_full_window :
  pd.rolling_mean 2 [Fin 1; Fin 3; NaN; Fin 5; Fin 7]
  = [NaN; Fin 2; NaN; NaN; Fin 6].
Proof.
  unfold pd.rolling_mean. cbn [length seq map pd.window skipn firstn dropna
    Nat.add Nat.sub Nat.leb Rsum fold_right].
  rewrite !fdiv_nonzero by (simpl; lra).
  repeat f_equal; simpl; lra.
Qed.

Example row_maximum_skips_missing :
  pd.concat3_max [Fin 2; Fin 1] [NaN; Fin 5] [NaN; Fin 3] = [Fin 2; Fin 5].
Proof.
  cbn [pd.concat3_max pd.max dropna Rmaximum].
  rewrite (Rmax_right 1 5), (Rmax_left 5 3) by lra. reflexivity.
Qed.

Example years_in_ascending_order :
  sorted (unique [2021; 2020; 2021; 2022; 2020]%Z) = [2020; 2021; 2022]%Z.
Proof. reflexivity. Qed.

Example mask_selects_rows :
  select [true; false; true] [Fin 1; Fin 2; Fin 3] = [Fin 1; Fin 3].
Proof. reflexivity. Qed.

(** ** Realized volatility *)

Lemma std_sample_std (s : Series) :
  (2 <= length (dropna s))%nat ->
  pd.std s = Fin (sample_std (dropna s)).
Proof.
  intros Hn. unfold pd.std, sample_std, sample_mean.
  set (values := dropna s) in *. set (n := length values) in *.
  destruct (Nat.leb_spec n 1) as [Hle|Hgt]; [lia|].
  assert (HINR : INR (n - 1) = INR n - 1).
  { rewrite minus_INR by lia. reflexivity. }
  assert (Hpos : 0 < INR (n - 1)) by (apply lt_0_INR; lia).
  assert (Hsq : map (fun x => (Rsum values / INR n - x) * (Rsum values / INR n - x)) values
                = map (fun x => Rsqr (x - Rsum values / INR n)) values).
  { apply map_ext. intros x. unfold Rsqr. ring. }
  rewrite sqrt_of_nonneg.
  - rewrite Hsq, HINR. reflexivity.
  - apply Rmult_le_pos.
    + apply (Rsum_sqr_nonneg (fun x => Rsum values / INR n - x)).
    + left. now apply Rinv_0_lt_compat.
Qed.

(** C1.  On a window with at least two non-missing returns, realized
    volatility is the sample standard deviation of those returns (about
    their own mean, [N - 1] denominator); with [annualize] it is that
    statistic times [sqrt 252], and the annualized result is the
    non-annualized result multiplied by [sqrt 252]. *)
Theorem realized_volatility_is_sample_std (returns : Series) :
  (2 <= length (dropna returns))%nat ->
  calculate_realized_volatility returns false
    = Fin (sample_std (dropna returns)) /\
  calculate_realized_volatility returns true
    = Fin (sample_std (dropna returns) * sqrt 252) /\
  calculate_realized_volatility returns true
    = fmul (calculate_realized_volatility returns false) (np.sqrt (Fin 252)).
Proof.
  intros Hn. unfold calculate_realized_volatility.
  rewrite (std_sample_std returns Hn), sqrt_of_nonneg by lra.
  repeat split.
Qed.

Lemma realized_volatility_is_sample_std_witness :
  calculate_realized_volatility two_returns false
    = Fin (sample_std (dropna two_returns)) /\
  calculate_realized_volatility two_returns true
    = Fin (sample_std (dropna two_returns) * sqrt 252) /\
  calculate_realized_volatility two_returns true
    = fmul (calculate_realized_volatility two_returns false) (np.sqrt (Fin 252)).
Proof.
  apply (realized_volatility_is_sample_std two_returns). simpl. lia.
Defined.

(** ** Log returns *)

Lemma returns_of_closes (df : DataFrame) (c0 : R) (t : list R) :
  close df = map Fin (c0 :: t) ->
  returns (calculate_returns df)
  = Some (NaN :: map np.log (adjacent fdiv (Fin c0) (map Fin t))).
Proof.
  intros Hc. unfold calculate_returns, set_returns. cbn [returns].
  rewrite Hc. cbn [map]. rewrite zip_with_shift. reflexivity.
Qed.

(** C3.  On a frame of [N] positive closes the returns column has [N]
    entries aligned with the closes: entry [0] is missing and entry [i],
    for [i >= 1], is [ln (close_i / close_(i-1))]. *)
Theorem calculate_returns_log_returns (df : DataFrame) (cs : list R) :
  close df = map Fin cs ->
  Forall (fun c => 0 < c) cs ->
  exists r,
    returns (calculate_returns df) = Some r /\
    length r = length cs /\
    ((0 < length cs)%nat -> nth_error r 0 = Some NaN) /\
    forall i, (1 <= i < length cs)%nat ->
      nth_error r i = Some (Fin (ln (nth i cs 0 / nth (i - 1) cs 0))).
Proof.
  intros Hc Hpos. destruct cs as [|c0 t].
  - exists []. unfold calculate_returns, set_returns. cbn [returns].
    rewrite Hc. repeat split; simpl; intros; lia.
  - eexists. split; [apply (returns_of_closes df c0 t Hc)|].
    split; [|split].
    + simpl. now rewrite length_map, adjacent_length, length_map.
    + reflexivity.
    + intros i [Hi1 Hi2]. simpl in Hi2.
      destruct i as [|i]; [lia|].
      cbn [nth_error]. rewrite nth_error_map.
      rewrite (adjacent_nth_error fdiv (map Fin t) (Fin c0) i (Fin 0))
        by (rewrite length_map; lia).
      cbn [option_map].
      change (Fin c0 :: map Fin t) with (map Fin (c0 :: t)).
      rewrite !(map_nth Fin).
      replace (S i - 1)%nat with i by lia.
      assert (Hall : forall k, (k < length (c0 :: t))%nat -> 0 < nth k (c0 :: t) 0).
      { intros k Hk. rewrite Forall_forall in Hpos. apply Hpos, nth_In, Hk. }
      assert (Hnum : 0 < nth (S i) (c0 :: t) 0) by (apply Hall; simpl; lia).
      assert (Hden : 0 < nth i (c0 :: t) 0) by (apply Hall; simpl; lia).
      change (nth (S i) (c0 :: t) 0) with (nth i t 0) in *.
      rewrite fdiv_nonzero by lra.
      rewrite log_of_pos by (apply Rdiv_lt_0_compat; assumption).
      reflexivity.
Qed.

Lemma calculate_returns_log_returns_witness :
  exists r,
    returns (calculate_returns loaded) = Some r /\
    length r = length (map bar_close (days 2021 10)) /\
    ((0 < length (map bar_close (days 2021 10)))%nat ->
     nth_error r 0 = Some NaN) /\
    forall i, (1 <= i < length (map bar_close (days 2021 10)))%nat ->
      nth_error r i
      = Some (Fin (ln (nth i (map bar_close (days 2021 10)) 0
                       / nth (i - 1) (map bar_close (days 2021 10)) 0))).
Proof.
  apply (calculate_returns_log_returns loaded (map bar_close (days 2021 10))).
  - reflexivity.
  - cbn. repeat (constructor; [lra|]). constructor.
Defined.

(** ** Selecting the rows of a year *)

Lemma select_year_length {A} (ys : list Z) (y : Z) (xs : list A) :
  length xs = length ys ->
  length (select (map (fun z => (z =? y)%Z) ys) xs) = trading_days ys y.
Proof.
  unfold trading_days. revert xs; induction ys as [|z ys IH]; intros xs Hlen.
  - reflexivity.
  - destruct xs as [|x xs]; [discriminate|]. injection Hlen as Hlen.
    cbn [map select count_occ].
    destruct (Z.eqb_spec z y) as [Heq|Hne]; destruct (Z.eq_dec z y); try contradiction.
    + cbn [length]. now rewrite IH.
    + now apply IH.
Qed.

Lemma year_slice_len (df : DataFrame) (y : Z) :
  len (year_slice df (index_years df) y) = trading_days (index_years df) y.
Proof.
  unfold len, year_slice, select_rows. cbn [index].
  apply select_year_length. unfold index_years. now rewrite length_map.
Qed.

Lemma year_slice_close_length (df : DataFrame) (y : Z) :
  length (close df) = length (index df) ->
  length (close (year_slice df (index_years df) y))
  = trading_days (index_years df) y.
Proof.
  intros Hlen. unfold year_slice, select_rows. cbn [close].
  apply select_year_length. unfold index_years. now rewrite length_map.
Qed.

(** With the returns column present and a close to read, the body of the
    loop ends normally. *)
Lemma year_metrics_returns (y : Z) (yd : DataFrame) (r : Series) :
  returns yd = Some r ->
  close yd <> [] ->
  exists m, year_metrics y yd = inr m /\
    Year m = y /\
    Trading_Days m = len yd /\
    Realized_Volatility m = fmul (calculate_realized_volatility r true) (Fin 100) /\
    Garman_Klass_Volatility m
      = fmul (calculate_garman_klass_volatility yd true) (Fin 100) /\
    Max_Daily_Return m = fmul (pd.max r) (Fin 100) /\
    Min_Daily_Return m = fmul (pd.min r) (Fin 100) /\
    Avg_ATR m = calculate_atr yd 14.
Proof.
  intros Hr Hc. unfold year_metrics, getitem_returns. rewrite Hr.
  destruct (close yd) as [|c cs] eqn:Hclose; [contradiction|].
  cbn [bind ret pd.iloc_last pd.iloc_first].
  eexists. split; [reflexivity|]. cbn. repeat split.
Qed.

Lemma analyze_unfold (df : DataFrame) :
  analyze_volatility_by_year df
  = (with_years df,
     year_loop (with_years df) (index_years df)
               (sorted (unique (index_years df))) []).
Proof. reflexivity. Qed.

(** The loop on a frame that has its returns column: it ends normally,
    keeps the records it had, and adds one record for each year of
    [years] that passes the length test, in the order of [years]; each
    added record is what the loop body computes on that year's rows. *)
Lemma year_loop_returns (df : DataFrame) (r : Series) :
  returns df = Some r ->
  length (close df) = length (index df) ->
  forall years results, exists res,
    year_loop (with_years df) (index_years df) years results
      = inr (results ++ res) /\
    map Year res = filter (qualifies (index_years df)) years /\
    Forall (fun m =>
              year_metrics (Year m)
                (year_slice (with_years df) (index_years df) (Year m))
              = inr m) res.
Proof.
  intros Hr Hlen years.
  induction years as [|y rest IH]; intros results.
  - exists []. cbn. rewrite app_nil_r. repeat split. constructor.
  - cbn [year_loop filter].
    assert (Hdays : len (year_slice (with_years df) (index_years df) y)
                    = trading_days (index_years df) y)
      by apply (year_slice_len df y).
    rewrite Hdays. unfold qualifies.
    destruct (Nat.ltb_spec (trading_days (index_years df) y) 10) as [Hlt|Hge].
    + destruct (Nat.leb_spec 10 (trading_days (index_years df) y)); [lia|].
      apply IH.
    + destruct (Nat.leb_spec 10 (trading_days (index_years df) y)); [|lia].
      destruct (year_metrics_returns y
                  (year_slice (with_years df) (index_years df) y)
                  (select (map (fun z => (z =? y)%Z) (index_years df)) r))
        as (m & Hm & HY & _).
      * unfold year_slice, select_rows, with_years, set_year. cbn [returns].
        now rewrite Hr.
      * pose proof (year_slice_close_length df y Hlen) as Hc.
        change (close (year_slice (with_years df) (index_years df) y))
          with (close (year_slice df (index_years df) y)).
        intros Hnil. rewrite Hnil in Hc. simpl in Hc. lia.
      * unfold bind at 1. rewrite Hm.
        destruct (IH (results ++ [m])) as (res & Hloop & Hyears & Hall).
        exists (m :: res). split; [|split].
        -- rewrite Hloop, <- app_assoc. reflexivity.
        -- cbn [map]. now rewrite HY, Hyears.
        -- constructor; [now rewrite HY|exact Hall].
Qed.

(** ** The years the loop visits *)

Lemma unique_In (l : list Z) (y : Z) : In y (unique l) <-> In y l.
Proof.
  induction l as [|x t IH]; [reflexivity|].
  cbn [unique In]. rewrite filter_In, IH.
  destruct (Z.eqb_spec y x) as [->|Hne]; cbn [negb]; intuition congruence.
Qed.

Lemma unique_NoDup (l : list Z) : NoDup (unique l).
Proof.
  induction l as [|x t IH]; cbn [unique]; constructor.
  - rewrite filter_In. intros [_ H]. now rewrite Z.eqb_refl in H.
  - now apply NoDup_filter.
Qed.

Lemma insert_In (x y : Z) (l : list Z) : In y (insert x l) <-> y = x \/ In y l.
Proof.
  induction l as [|z t IH]; cbn [insert In]; [intuition|].
  destruct (x <=? z)%Z; cbn [In]; [|rewrite IH]; intuition.
Qed.

Lemma sorted_In (l : list Z) (y : Z) : In y (sorted l) <-> In y l.
Proof.
  induction l as [|x t IH]; [reflexivity|].
  cbn [sorted In]. rewrite insert_In, IH. intuition.
Qed.

Lemma insert_ascending (x : Z) (l : list Z) :
  StronglySorted Z.lt l -> ~ In x l -> StronglySorted Z.lt (insert x l).
Proof.
  induction 1 as [|z t Hs IH Hz]; intros Hx; cbn [insert].
  - repeat constructor.
  - destruct (Z.leb_spec x z) as [Hle|Hgt].
    + assert (x < z)%Z by (cbn [In] in Hx; assert (z <> x) by intuition; lia).
      constructor; [now constructor|].
      constructor; [assumption|].
      rewrite Forall_forall in Hz |- *. intros w Hw. specialize (Hz w Hw). lia.
    + constructor; [apply IH; cbn [In] in Hx; intuition|].
      rewrite Forall_forall in Hz |- *. intros w Hw.
      apply insert_In in Hw as [->|Hw]; [lia|auto].
Qed.

Lemma sorted_ascending (l : list Z) :
  NoDup l -> StronglySorted Z.lt (sorted l).
Proof.
  induction 1 as [|x t Hx Hnd IH]; cbn [sorted]; [constructor|].
  apply insert_ascending; [exact IH|]. now rewrite sorted_In.
Qed.

Lemma filter_ascending (f : Z -> bool) (l : list Z) :
  StronglySorted Z.lt l -> StronglySorted Z.lt (filter f l).
Proof.
  induction 1 as [|x t Hs IH Hx]; cbn [filter]; [constructor|].
  destruct (f x); [|exact IH].
  constructor; [exact IH|].
  rewrite Forall_forall in Hx |- *. intros w Hw.
  apply filter_In in Hw as [Hw _]. auto.
Qed.

Lemma ascending_NoDup (l : list Z) : StronglySorted Z.lt l -> NoDup l.
Proof.
  induction 1 as [|x t Hs IH Hx]; constructor; [|exact IH].
  intros Hin. rewrite Forall_forall in Hx. specialize (Hx x Hin). lia.
Qed.

Lemma qualifies_In (ys : list Z) (y : Z) :
  qualifies ys y = true -> In y ys.
Proof.
  unfold qualifies, trading_days. intros H.
  apply Nat.leb_le in H. apply (count_occ_In Z.eq_dec). lia.
Qed.

Lemma qualifying_years_In (ys : list Z) (y : Z) :
  In y (qualifying_years ys) <-> (10 <= trading_days ys y)%nat.
Proof.
  unfold qualifying_years. rewrite filter_In, sorted_In, unique_In.
  unfold qualifies at 1. rewrite Nat.leb_le. split; [tauto|].
  intros H. split; [|exact H].
  apply qualifies_In. unfold qualifies. now apply Nat.leb_le.
Qed.

Lemma qualifying_years_ascending (ys : list Z) :
  StronglySorted Z.lt (qualifying_years ys).
Proof.
  apply filter_ascending, sorted_ascending, unique_NoDup.
Qed.

(** The call on a well-formed frame that has its returns column. *)
Lemma analyze_returns (df : DataFrame) (r : Series) :
  well_formed df ->
  returns df = Some r ->
  exists res,
    snd (analyze_volatility_by_year df) = inr res /\
    map Year res = qualifying_years (index_years df) /\
    Forall (fun m =>
              year_metrics (Year m)
                (year_slice (with_years df) (index_years df) (Year m))
              = inr m) res.
Proof.
  intros (_ & _ & _ & Hclose & _) Hr.
  destruct (year_loop_returns df r Hr Hclose
              (sorted (unique (index_years df))) []) as (res & Hloop & Hy & Hall).
  exists res. rewrite analyze_unfold. cbn [snd]. auto.
Qed.

Lemma year_metrics_inv (y : Z) (yd : DataFrame) (m : YearSummary) :
  year_metrics y yd = inr m ->
  Year m = y /\
  Trading_Days m = len yd /\
  Garman_Klass_Volatility m
    = fmul (calculate_garman_klass_volatility yd true) (Fin 100) /\
  Avg_ATR m = calculate_atr yd 14 /\
  exists r, returns yd = Some r /\
    Realized_Volatility m
      = fmul (calculate_realized_volatility r true) (Fin 100) /\
    Max_Daily_Return m = fmul (pd.max r) (Fin 100) /\
    Min_Daily_Return m = fmul (pd.min r) (Fin 100).
Proof.
  unfold year_metrics, getitem_returns.
  destruct (returns yd) as [r|]; [|discriminate].
  destruct (close yd) as [|c cs]; [discriminate|].
  cbn [bind ret pd.iloc_last pd.iloc_first].
  intros H. injection H as <-. cbn. repeat split. exists r. repeat split.
Qed.

Lemma zip_with_shift_length {B} (f : float64 -> float64 -> B) (s : Series) :
  length (zip_with f s (pd.shift s)) = length s.
Proof.
  destruct s as [|x t]; [reflexivity|].
  rewrite zip_with_shift. cbn [length]. now rewrite adjacent_length.
Qed.

Lemma calculate_returns_well_formed (bars : list Bar) :
  well_formed (calculate_returns (frame_of bars)).
Proof.
  unfold well_formed, calculate_returns, set_returns, frame_of.
  cbn [index open high low close returns year].
  rewrite !length_map. repeat split; try reflexivity.
  - intros r Hr. injection Hr as <-.
    now rewrite length_map, zip_with_shift_length, length_map.
  - intros ys Hys. discriminate.
Qed.

(** ** The aggregator *)

(** C4.  On a well-formed frame with its returns column the call ends
    normally, and its table has a record for a year exactly when the
    index has at least ten rows of that year; the record counts the rows
    the year has. *)
Theorem year_emitted_iff_ten_trading_days (df : DataFrame) :
  well_formed df ->
  returns df <> None ->
  exists res,
    snd (analyze_volatility_by_year df) = inr res /\
    (forall y, In y (map Year res)
               <-> (10 <= trading_days (index_years df) y)%nat) /\
    (forall m, In m res ->
               Trading_Days m = trading_days (index_years df) (Year m)).
Proof.
  intros Hwf Hr. destruct (returns df) as [r|] eqn:Er; [|contradiction].
  destruct (analyze_returns df r Hwf Er) as (res & Hres & Hy & Hall).
  exists res. split; [exact Hres|]. split.
  - intros y. rewrite Hy. apply qualifying_years_In.
  - intros m Hm. rewrite Forall_forall in Hall.
    destruct (year_metrics_inv _ _ _ (Hall m Hm)) as (_ & Hdays & _).
    rewrite Hdays. apply (year_slice_len df).
Qed.

Lemma year_emitted_iff_ten_trading_days_witness :
  exists res,
    snd (analyze_volatility_by_year short_then_ten) = inr res /\
    (forall y, In y (map Year res)
               <-> (10 <= trading_days (index_years short_then_ten) y)%nat) /\
    (forall m, In m res ->
               Trading_Days m
               = trading_days (index_years short_then_ten) (Year m)).
Proof.
  apply (year_emitted_iff_ten_trading_days short_then_ten).
  - apply calculate_returns_well_formed.
  - discriminate.
Defined.

(** The two sides of the threshold on the sample series: 2021, with ten
    bars, is in the table and 2020, with nine, is not. *)
Example ten_bars_pass_nine_do_not :
  qualifying_years (index_years short_then_ten) = [2021%Z].
Proof. reflexivity. Qed.

(** C8.  The years of the table are strictly ascending, and each year that
    passes the length test has one record, any other year none. *)
Theorem summary_ascending_one_per_year (df : DataFrame) :
  well_formed df ->
  returns df <> None ->
  exists res,
    snd (analyze_volatility_by_year df) = inr res /\
    StronglySorted Z.lt (map Year res) /\
    forall y, count_occ Z.eq_dec (map Year res) y
              = if qualifies (index_years df) y then 1%nat else 0%nat.
Proof.
  intros Hwf Hr. destruct (returns df) as [r|] eqn:Er; [|contradiction].
  destruct (analyze_returns df r Hwf Er) as (res & Hres & Hy & _).
  exists res. split; [exact Hres|]. rewrite Hy.
  pose proof (qualifying_years_ascending (index_years df)) as Hs.
  split; [exact Hs|]. intros y.
  pose proof (qualifying_years_In (index_years df) y) as Hin.
  unfold qualifies at 1.
  destruct (Nat.leb_spec 10 (trading_days (index_years df) y)) as [Hge|Hlt].
  - apply NoDup_count_occ'; [now apply ascending_NoDup|tauto].
  - apply count_occ_not_In. rewrite Hin. lia.
Qed.

Lemma summary_ascending_one_per_year_witness :
  exists res,
    snd (analyze_volatility_by_year short_then_ten) = inr res /\
    StronglySorted Z.lt (map Year res) /\
    forall y, count_occ Z.eq_dec (map Year res) y
              = if qualifies (index_years short_then_ten) y
                then 1%nat else 0%nat.
Proof.
  apply (summary_ascending_one_per_year short_then_ten).
  - apply calculate_returns_well_formed.
  - discriminate.
Defined.

(** ** Rolling windows shorter than the period *)

Lemma dropna_length (s : Series) : (length (dropna s) <= length s)%nat.
Proof.
  induction s as [|[|r] t IH]; cbn [dropna length]; lia.
Qed.

Lemma window_length (w i : nat) (s : Series) :
  (length (pd.window w i s) <= length s)%nat.
Proof.
  unfold pd.window. rewrite length_skipn, length_firstn. lia.
Qed.

Lemma dropna_all_missing {A} (l : list A) :
  dropna (map (fun _ => NaN) l) = [].
Proof. induction l as [|x t IH]; [reflexivity|exact IH]. Qed.

Lemma rolling_mean_short (w : nat) (s : Series) :
  (length s < w)%nat ->
  pd.rolling_mean w s = map (fun _ => NaN) (seq 0 (length s)).
Proof.
  intros Hlen. unfold pd.rolling_mean. apply map_ext. intros i.
  pose proof (dropna_length (pd.window w i s)).
  pose proof (window_length w i s).
  destruct (Nat.leb_spec w (length (dropna (pd.window w i s)))); [lia|reflexivity].
Qed.

Lemma zip_with_length_le {A B C} (f : A -> B -> C) (xs : list A) (ys : list B) :
  (length (zip_with f xs ys) <= length xs)%nat.
Proof.
  revert ys; induction xs as [|x xs IH]; intros [|y ys]; cbn [zip_with length]; try lia.
  specialize (IH ys). lia.
Qed.

Lemma concat3_max_length_le (a b c : Series) :
  (length (pd.concat3_max a b c) <= length a)%nat.
Proof.
  revert b c; induction a as [|x a IH]; intros [|y b] [|z c];
    cbn [pd.concat3_max length]; try lia.
  specialize (IH b c). lia.
Qed.

Lemma true_range_length_le (df : DataFrame) :
  (length (true_range df) <= length (high df))%nat.
Proof.
  unfold true_range.
  etransitivity; [apply concat3_max_length_le|apply zip_with_length_le].
Qed.

Lemma calculate_atr_short (df : DataFrame) (period : nat) :
  (length (high df) < period)%nat ->
  dropna (pd.rolling_mean period (true_range df)) = [] /\
  calculate_atr df period = NaN.
Proof.
  intros Hlen. pose proof (true_range_length_le df) as Hle.
  assert (Hroll : dropna (pd.rolling_mean period (true_range df)) = []).
  { rewrite rolling_mean_short by lia. apply dropna_all_missing. }
  split; [exact Hroll|].
  unfold calculate_atr, pd.mean. now rewrite Hroll.
Qed.

(** On any well-formed frame with its returns column, a year with at
    least ten rows and fewer than fourteen has its record, and the ATR
    field of that record is missing: the 14-row rolling mean of the year's
    true range has no valid value. *)
Lemma short_year_record (df : DataFrame) (y : Z) :
  well_formed df ->
  returns df <> None ->
  (10 <= trading_days (index_years df) y < 14)%nat ->
  exists res m,
    snd (analyze_volatility_by_year df) = inr res /\
    In m res /\
    Year m = y /\
    Trading_Days m = trading_days (index_years df) y /\
    Avg_ATR m
      = pd.mean (pd.rolling_mean 14
                   (true_range (year_slice (with_years df) (index_years df) y))) /\
    dropna (pd.rolling_mean 14
              (true_range (year_slice (with_years df) (index_years df) y))) = [] /\
    Avg_ATR m = NaN.
Proof.
  intros Hwf Hr [Hge Hlt]. destruct (returns df) as [r|] eqn:Er; [|contradiction].
  destruct (analyze_returns df r Hwf Er) as (res & Hres & Hy & Hall).
  assert (Hin : In y (map Year res)).
  { rewrite Hy. now apply qualifying_years_In. }
  apply in_map_iff in Hin as (m & HYm & Hm).
  exists res, m. split; [exact Hres|]. split; [exact Hm|]. split; [exact HYm|].
  rewrite Forall_forall in Hall. specialize (Hall m Hm). rewrite HYm in Hall.
  destruct (year_metrics_inv _ _ _ Hall) as (_ & Hdays & _ & Hatr & _).
  split; [rewrite Hdays; apply (year_slice_len df)|].
  split; [exact Hatr|].
  rewrite Hatr. apply calculate_atr_short.
  destruct Hwf as (_ & Hhigh & _).
  unfold year_slice, select_rows, with_years, set_year. cbn [high].
  rewrite select_year_length; [lia|].
  unfold index_years. now rewrite length_map.
Qed.

(** ** Input order *)

(** C6, as stated, fails: on a series whose later year comes first the call
    ends normally and returns a table. *)
Lemma unsorted_series_is_analyzed :
  strictly_ascending (index out_of_order) = false /\
  exists res,
    snd (analyze_volatility_by_year out_of_order) = inr res /\
    map Year res = [2020%Z; 2021%Z].
Proof.
  split; [reflexivity|].
  destruct (analyze_returns out_of_order
              (map np.log (zip_with fdiv (close out_of_order)
                                    (pd.shift (close out_of_order)))))
    as (res & Hres & Hy & _).
  - apply calculate_returns_well_formed.
  - reflexivity.
  - exists res. split; [exact Hres|]. rewrite Hy. reflexivity.
Qed.

(** C6, amended.  The aggregator does not test the order of its input: on
    a well-formed frame with its returns column whose index is not
    strictly ascending the call raises nothing; it ends normally with the
    records of the years that pass the length test, each computed on the
    rows of its year in the order given. *)
Theorem unsorted_input_is_not_rejected (df : DataFrame) :
  well_formed df ->
  returns df <> None ->
  strictly_ascending (index df) = false ->
  exists res,
    snd (analyze_volatility_by_year df) = inr res /\
    map Year res = qualifying_years (index_years df) /\
    forall m, In m res ->
      year_metrics (Year m)
        (year_slice (with_years df) (index_years df) (Year m)) = inr m.
Proof.
  intros Hwf Hr _. destruct (returns df) as [r|] eqn:Er; [|contradiction].
  destruct (analyze_returns df r Hwf Er) as (res & Hres & Hy & Hall).
  exists res. rewrite Forall_forall in Hall. auto.
Qed.

Lemma unsorted_input_is_not_rejected_witness :
  exists res,
    snd (analyze_volatility_by_year out_of_order) = inr res /\
    map Year res = qualifying_years (index_years out_of_order) /\
    forall m, In m res ->
      year_metrics (Year m)
        (year_slice (with_years out_of_order) (index_years out_of_order)
                    (Year m)) = inr m.
Proof.
  apply (unsorted_input_is_not_rejected out_of_order).
  - apply calculate_returns_well_formed.
  - discriminate.
  - reflexivity.
Defined.

(** ** The caller's frame *)

(** C9, as stated, fails: the frame after the core has run differs from
    the loaded table, which had no returns column. *)
Lemma core_assigns_columns :
  fst (analyze_volatility_by_year (calculate_returns loaded)) <> loaded /\
  returns loaded = None /\
  returns (calculate_returns loaded) <> None.
Proof.
  split; [|split].
  - intros H. apply (f_equal returns) in H. discriminate H.
  - reflexivity.
  - discriminate.
Qed.

(** C9, amended.  The core leaves the index and the four price columns of
    the caller's frame as they were, and assigns two columns to it:
    [calculate_returns] the returns column, the aggregator the year
    column. *)
Theorem core_keeps_prices_and_index (df : DataFrame) :
  let df1 := calculate_returns df in
  let df2 := fst (analyze_volatility_by_year df1) in
  (index df1 = index df /\ open df1 = open df /\ high df1 = high df /\
   low df1 = low df /\ close df1 = close df /\ year df1 = year df /\
   returns df1
   = Some (map np.log (zip_with fdiv (close df) (pd.shift (close df))))) /\
  (index df2 = index df /\ open df2 = open df /\ high df2 = high df /\
   low df2 = low df /\ close df2 = close df /\ returns df2 = returns df1 /\
   year df2 = Some (map ts_year (index df))).
Proof. cbv zeta. repeat split. Qed.

(** ** Garman-Klass *)

Lemma zip_with_map {A B C D} (f : B -> C -> D) (g : A -> B) (h : A -> C)
    (l : list A) :
  zip_with f (map g l) (map h l) = map (fun x => f (g x) (h x)) l.
Proof.
  induction l as [|x t IH]; cbn [map zip_with]; [|rewrite IH]; reflexivity.
Qed.

Lemma mean_of_reals (xs : list R) :
  xs <> [] -> pd.mean (map Fin xs) = Fin (sample_mean xs).
Proof.
  intros Hne. unfold pd.mean, sample_mean. rewrite dropna_map_Fin.
  destruct xs as [|x t]; [contradiction|reflexivity].
Qed.

Lemma mean_of_nothing : pd.mean [] = NaN.
Proof. reflexivity. Qed.

Lemma squared_log_ratio {A} (num den : A -> R) (l : list A) :
  Forall (fun b => 0 < num b /\ 0 < den b) l ->
  map fsquare
      (map np.log (zip_with fdiv (map (fun b => Fin (num b)) l)
                            (map (fun b => Fin (den b)) l)))
  = map Fin (map (fun b => Rsqr (ln (num b / den b))) l).
Proof.
  intros Hpos. rewrite zip_with_map, !map_map.
  apply map_ext_in. intros b Hb.
  rewrite Forall_forall in Hpos. destruct (Hpos b Hb) as [Hn Hd].
  rewrite fdiv_nonzero by lra.
  rewrite log_of_pos by (apply Rdiv_lt_0_compat; assumption).
  reflexivity.
Qed.

(** On bars with positive prices the estimator takes the square root of
    the radicand of the formula. *)
Lemma garman_klass_radicand (bars : list Bar) (annualize : bool) :
  bars <> [] ->
  Forall positive_prices bars ->
  calculate_garman_klass_volatility (frame_of bars) annualize
  = let vol := np.sqrt (Fin (gk_radicand bars)) in
    if annualize then fmul vol (np.sqrt (Fin 252)) else vol.
Proof.
  intros Hne Hpos.
  unfold calculate_garman_klass_volatility, frame_of, gk_radicand.
  cbn [open high low close].
  rewrite (squared_log_ratio bar_high bar_low),
          (squared_log_ratio bar_close bar_open).
  - rewrite !mean_of_reals
      by (destruct bars; [contradiction|discriminate]).
    rewrite log_of_pos by lra. reflexivity.
  - eapply Forall_impl; [|exact Hpos]. unfold positive_prices. tauto.
  - eapply Forall_impl; [|exact Hpos]. unfold positive_prices. tauto.
Qed.

Lemma crushed_radicand : gk_radicand crushed < 0.
Proof.
  unfold gk_radicand, sample_mean, crushed.
  cbn [seq map bar_high bar_low bar_close bar_open Rsum fold_right length].
  replace (100 / 100) with 1 by lra.
  replace (200 / 100) with 2 by lra.
  rewrite ln_1. unfold Rsqr.
  replace (INR 10) with 10 by (simpl; lra).
  pose proof ln_lt_2 as H2.
  assert (Hsq : / 4 < ln 2 * ln 2) by nra.
  nra.
Qed.

Lemma fmul_NaN_l (a : float64) : fmul NaN a = NaN.
Proof. reflexivity. Qed.

Lemma garman_klass_negative (bars : list Bar) (annualize : bool) :
  Forall positive_prices bars ->
  gk_radicand bars < 0 ->
  calculate_garman_klass_volatility (frame_of bars) annualize = NaN.
Proof.
  intros Hpos Hneg. destruct bars as [|b bars].
  - destruct annualize; reflexivity.
  - rewrite garman_klass_radicand by (assumption || discriminate).
    cbv zeta. rewrite sqrt_of_neg by exact Hneg.
    destruct annualize; reflexivity.
Qed.

Lemma crushed_positive : Forall positive_prices crushed.
Proof.
  unfold crushed. apply Forall_forall. intros b Hb.
  apply in_map_iff in Hb as (d & <- & _).
  unfold positive_prices. cbn. lra.
Qed.

(** C5, as stated, fails: on the ten bars of [crushed] the radicand is
    negative, the estimator returns the missing value, and the aggregator
    ends normally with that value in the year's record. *)
Lemma negative_radicand_is_not_signalled :
  gk_radicand crushed < 0 /\
  calculate_garman_klass_volatility (frame_of crushed) true = NaN /\
  exists res m,
    snd (analyze_volatility_by_year (calculate_returns (frame_of crushed)))
      = inr res /\
    In m res /\
    Year m = 2021%Z /\
    Garman_Klass_Volatility m = NaN.
Proof.
  split; [exact crushed_radicand|].
  assert (Hgk : calculate_garman_klass_volatility (frame_of crushed) true = NaN)
    by (apply garman_klass_negative;
        [exact crushed_positive|exact crushed_radicand]).
  split; [exact Hgk|].
  set (df := calculate_returns (frame_of crushed)).
  destruct (analyze_returns df
              (map np.log (zip_with fdiv (close df) (pd.shift (close df)))))
    as (res & Hres & Hy & Hall).
  - apply calculate_returns_well_formed.
  - reflexivity.
  - assert (Hin : In 2021%Z (map Year res)) by (rewrite Hy; left; reflexivity).
    apply in_map_iff in Hin as (m & HYm & Hm).
    exists res, m. repeat split; try assumption.
    rewrite Forall_forall in Hall. specialize (Hall m Hm). rewrite HYm in Hall.
    destruct (year_metrics_inv _ _ _ Hall) as (_ & _ & Hg & _).
    rewrite Hg.
    change (calculate_garman_klass_volatility
              (year_slice (with_years df) (index_years df) 2021%Z) true)
      with (calculate_garman_klass_volatility (frame_of crushed) true).
    rewrite Hgk. reflexivity.
Qed.

(** C5, amended.  On bars with positive prices whose Garman-Klass radicand
    is negative the estimator raises nothing and returns the missing
    value, with or without annualization. *)
Theorem garman_klass_negative_radicand_is_nan
    (bars : list Bar) (annualize : bool) :
  Forall positive_prices bars ->
  gk_radicand bars < 0 ->
  calculate_garman_klass_volatility (frame_of bars) annualize = NaN /\
  fmul (calculate_garman_klass_volatility (frame_of bars) annualize) (Fin 100)
  = NaN.
Proof.
  intros Hpos Hneg. rewrite (garman_klass_negative bars annualize Hpos Hneg).
  split; reflexivity.
Qed.

Lemma garman_klass_negative_radicand_is_nan_witness :
  calculate_garman_klass_volatility (frame_of crushed) true = NaN /\
  fmul (calculate_garman_klass_volatility (frame_of crushed) true) (Fin 100)
  = NaN.
Proof.
  apply (garman_klass_negative_radicand_is_nan crushed true).
  - exact crushed_positive.
  - exact crushed_radicand.
Defined.

(** ** Returns across the year boundary *)







(** ** Average true range *)

Lemma true_range_rows (t : list Bar) (c : R) :
  pd.concat3_max
    (map (fun b => Fin (bar_high b - bar_low b)) t)
    (map np.abs (zip_with fsub (map (fun b => Fin (bar_high b)) t)
                          (Fin c :: map (fun b => Fin (bar_close b)) t)))
    (map np.abs (zip_with fsub (map (fun b => Fin (bar_low b)) t)
                          (Fin c :: map (fun b => Fin (bar_close b)) t)))
  = map Fin (true_ranges_from c t).
Proof.
  revert c; induction t as [|b t IH]; intros c; [reflexivity|].
  cbn [map zip_with pd.concat3_max true_ranges_from].
  rewrite IH. f_equal.
  unfold pd.max, true_range_after. cbn. f_equal.
  symmetry. apply Rmax_assoc.
Qed.

Lemma true_range_of_bars (bars : list Bar) :
  true_range (frame_of bars) = map Fin (true_ranges bars).
Proof.
  unfold true_range, frame_of. cbn [high low close].
  rewrite zip_with_map.
  destruct bars as [|b t]; [reflexivity|].
  cbn [map]. rewrite !zip_with_shift_other by now rewrite !length_map.
  cbn [map pd.concat3_max true_ranges].
  change (fsub (Fin (bar_high b)) (Fin (bar_low b)))
    with (Fin (bar_high b - bar_low b)).
  rewrite <- (true_range_rows t (bar_close b)). reflexivity.
Qed.

Lemma dropna_app (a b : Series) : dropna (a ++ b) = dropna a ++ dropna b.
Proof.
  induction a as [|[|r] t IH]; cbn [app dropna]; [| |rewrite IH]; auto.
Qed.

Lemma map_seq_from {A} (f : nat -> A) (n a : nat) :
  map f (seq a n) = map (fun k => f (k + a)%nat) (seq 0 n).
Proof.
  revert a; induction n as [|n IH]; intros a; [reflexivity|].
  cbn [seq map]. f_equal. rewrite IH, <- seq_shift, map_map.
  apply map_ext. intros k. f_equal. lia.
Qed.

(** A position of the rolling mean over real values: missing before the
    first full window, then the mean of the [w] values that end there. *)
Lemma rolling_mean_of_reals (w : nat) (xs : list R) :
  (1 <= w)%nat ->
  pd.rolling_mean w (map Fin xs)
  = map (fun i =>
           if (w <=? i + 1)%nat
           then Fin (sample_mean (firstn w (skipn (i + 1 - w) xs)))
           else NaN)
        (seq 0 (length xs)).
Proof.
  intros Hw. unfold pd.rolling_mean. rewrite length_map.
  apply map_ext_in. intros i Hi. apply in_seq in Hi.
  unfold pd.window.
  rewrite firstn_map, skipn_map, dropna_map_Fin.
  assert (Hlen : length (skipn (i + 1 - w) (firstn (i + 1) xs))
                 = Nat.min w (i + 1)).
  { rewrite length_skipn, length_firstn. lia. }
  rewrite Hlen.
  destruct (Nat.leb_spec w (i + 1)) as [Hle|Hgt].
  - rewrite Nat.min_l by lia.
    rewrite (proj2 (Nat.leb_le w w)) by lia.
    assert (Hcomm : skipn (i + 1 - w) (firstn (i + 1) xs)
                    = firstn w (skipn (i + 1 - w) xs)).
    { rewrite firstn_skipn_comm. f_equal. f_equal. lia. }
    rewrite Hcomm in *. unfold sample_mean. rewrite Hlen, Nat.min_l by lia.
    apply fdiv_nonzero. apply not_0_INR. lia.
  - rewrite Nat.min_r by lia.
    destruct (Nat.leb_spec w (i + 1)); [lia|reflexivity].
Qed.

Lemma rolling_mean_valid_values (w : nat) (xs : list R) :
  (1 <= w)%nat ->
  dropna (pd.rolling_mean w (map Fin xs)) = moving_averages w xs.
Proof.
  intros Hw. rewrite rolling_mean_of_reals by exact Hw.
  unfold moving_averages. set (n := length xs).
  set (g := fun k => sample_mean (firstn w (skipn k xs))).
  destruct (Nat.lt_ge_cases n w) as [Hlt|Hge].
  - replace (n + 1 - w)%nat with 0%nat by lia. cbn [seq map].
    rewrite (map_ext_in _ (fun _ => NaN)); [apply dropna_all_missing|].
    intros i Hi. apply in_seq in Hi.
    destruct (Nat.leb_spec w (i + 1)); [lia|reflexivity].
  - replace n with ((w - 1) + (n + 1 - w))%nat at 1 by lia.
    rewrite seq_app, map_app, dropna_app.
    rewrite (map_ext_in _ (fun _ => NaN) (seq 0 (w - 1))).
    + rewrite dropna_all_missing. cbn [app].
      rewrite map_seq_from.
      rewrite (map_ext_in _ (fun k => Fin (g k))).
      * rewrite <- (map_map g Fin). apply dropna_map_Fin.
      * intros k Hk. apply in_seq in Hk.
        destruct (Nat.leb_spec w (k + (0 + (w - 1)) + 1)); [|lia].
        unfold g. do 4 f_equal. lia.
    + intros i Hi. apply in_seq in Hi.
      destruct (Nat.leb_spec w (i + 1)); [lia|reflexivity].
Qed.

Lemma true_ranges_from_length (t : list Bar) (c : R) :
  length (true_ranges_from c t) = length t.
Proof.
  revert c; induction t as [|b t IH]; intros c; cbn; [|rewrite IH]; reflexivity.
Qed.

Lemma true_ranges_length (bars : list Bar) :
  length (true_ranges bars) = length bars.
Proof.
  destruct bars as [|b t]; cbn; [|rewrite true_ranges_from_length]; reflexivity.
Qed.

Lemma calculate_atr_of_bars (bars : list Bar) (period : nat) :
  (1 <= period)%nat ->
  calculate_atr (frame_of bars) period = average_true_range period bars.
Proof.
  intros Hp. unfold calculate_atr, average_true_range, pd.mean.
  rewrite true_range_of_bars, rolling_mean_valid_values by exact Hp.
  destruct (moving_averages period (true_ranges bars)); reflexivity.
Qed.

Lemma moving_averages_one_window (period : nat) (xs : list R) :
  length xs = period ->
  moving_averages period xs = [sample_mean xs].
Proof.
  intros Hlen. unfold moving_averages.
  replace (length xs + 1 - period)%nat with 1%nat by lia.
  cbn [seq map skipn]. rewrite <- Hlen, firstn_all. reflexivity.
Qed.

(** C2.  On bars with real prices the estimator with period 14 is the mean
    of the trailing 14-bar moving averages of the true range, where the
    true range of a bar is the largest of high minus low and the distances
    of high and of low from the previous close, and that of the first bar
    is high minus low; nothing is multiplied in for annualization.  On
    exactly fourteen bars it is the one full-window mean, the sum of the
    fourteen true ranges over fourteen. *)
Theorem average_true_range_is_mean_of_moving_average (bars : list Bar) :
  calculate_atr (frame_of bars) 14 = average_true_range 14 bars /\
  (length bars = 14%nat ->
   moving_averages 14 (true_ranges bars) = [Rsum (true_ranges bars) / 14] /\
   calculate_atr (frame_of bars) 14 = Fin (Rsum (true_ranges bars) / 14)).
Proof.
  split; [apply calculate_atr_of_bars; lia|].
  intros Hlen. rewrite calculate_atr_of_bars by lia.
  unfold average_true_range.
  rewrite moving_averages_one_window by (rewrite true_ranges_length; exact Hlen).
  assert (Hm : sample_mean (true_ranges bars) = Rsum (true_ranges bars) / 14).
  { unfold sample_mean. rewrite true_ranges_length, Hlen.
    replace (INR 14) with 14 by (simpl; lra). reflexivity. }
  rewrite Hm. split; [reflexivity|].
  f_equal. unfold sample_mean. cbn [Rsum fold_right length INR]. field.
Qed.

Lemma average_true_range_is_mean_of_moving_average_witness :
  calculate_atr (frame_of (days 2021 14)) 14
    = average_true_range 14 (days 2021 14) /\
  moving_averages 14 (true_ranges (days 2021 14))
    = [Rsum (true_ranges (days 2021 14)) / 14] /\
  calculate_atr (frame_of (days 2021 14)) 14
    = Fin (Rsum (true_ranges (days 2021 14)) / 14).
Proof.
  destruct (average_true_range_is_mean_of_moving_average (days 2021 14))
    as [Hall Hfull].
  split; [exact Hall|]. apply Hfull. reflexivity.
Defined.

(** * Further properties of the code *)

(** ** The range estimators *)

Lemma Rsum_nonneg (xs : list R) : Forall (fun x => 0 <= x) xs -> 0 <= Rsum xs.
Proof.
  induction 1 as [|x t Hx Ht IH]; cbn [Rsum fold_right]; [lra|].
  unfold Rsum in IH. lra.
Qed.

Lemma Rsum_le (f g : Bar -> R) (l : list Bar) :
  Forall (fun b => f b <= g b) l -> Rsum (map f l) <= Rsum (map g l).
Proof.
  induction 1 as [|x t Hx Ht IH]; cbn [map Rsum fold_right]; [lra|].
  unfold Rsum in IH. lra.
Qed.

Lemma sample_mean_nonneg (xs : list R) :
  Forall (fun x => 0 <= x) xs -> 0 <= sample_mean xs.
Proof.
  intros H. unfold sample_mean. destruct xs as [|x t].
  - cbn. rewrite Rdiv_0_l. lra.
  - apply Rmult_le_pos; [now apply Rsum_nonneg|].
    left. apply Rinv_0_lt_compat, lt_0_INR. cbn. lia.
Qed.

Lemma sample_mean_squares_nonneg {A} (f : A -> R) (l : list A) :
  0 <= sample_mean (map (fun b => Rsqr (f b)) l).
Proof.
  apply sample_mean_nonneg, Forall_forall. intros x Hx.
  apply in_map_iff in Hx as (b & <- & _). apply Rle_0_sqr.
Qed.

Lemma sample_mean_le (f g : Bar -> R) (l : list Bar) :
  Forall (fun b => f b <= g b) l ->
  sample_mean (map f l) <= sample_mean (map g l).
Proof.
  intros H. unfold sample_mean. rewrite !length_map.
  destruct l as [|b t].
  - cbn. lra.
  - apply Rmult_le_compat_r; [|now apply Rsum_le].
    left. apply Rinv_0_lt_compat, lt_0_INR. cbn. lia.
Qed.

Lemma ln_2_pos : 0 < ln 2.
Proof. pose proof ln_lt_2. lra. Qed.

(** [ln 2 < 3/4], from [exp (3/32) > 1 + 3/32] squared three times. *)
Lemma ln_2_upper : ln 2 < 3 / 4.
Proof.
  apply exp_lt_inv. rewrite exp_ln by lra.
  pose proof (exp_ineq1 (3 / 32)) as H1.
  assert (H : 1 + 3 / 32 < exp (3 / 32)) by (apply H1; lra).
  assert (E2 : exp (3 / 16) = exp (3 / 32) * exp (3 / 32))
    by (rewrite <- exp_plus; f_equal; lra).
  assert (E3 : exp (3 / 8) = exp (3 / 16) * exp (3 / 16))
    by (rewrite <- exp_plus; f_equal; lra).
  assert (E4 : exp (3 / 4) = exp (3 / 8) * exp (3 / 8))
    by (rewrite <- exp_plus; f_equal; lra).
  assert (H2 : 1.19 < exp (3 / 16)) by nra.
  assert (H3 : 1.416 < exp (3 / 8)) by nra.
  nra.
Qed.

Lemma parkinson_radicand_nonneg (bars : list Bar) : 0 <= parkinson_radicand bars.
Proof.
  unfold parkinson_radicand. apply Rmult_le_pos.
  - pose proof ln_2_pos. unfold Rdiv. rewrite Rmult_1_l.
    left. apply Rinv_0_lt_compat. lra.
  - apply sample_mean_squares_nonneg.
Qed.

Lemma parkinson_of_radicand (bars : list Bar) (annualize : bool) :
  bars <> [] ->
  Forall (fun b => 0 < bar_high b /\ 0 < bar_low b) bars ->
  calculate_parkinson_volatility (frame_of bars) annualize
  = Fin (if annualize
         then sqrt (parkinson_radicand bars) * sqrt 252
         else sqrt (parkinson_radicand bars)).
Proof.
  intros Hne Hpos.
  unfold calculate_parkinson_volatility, frame_of. cbn [high low].
  rewrite (squared_log_ratio bar_high bar_low) by exact Hpos.
  rewrite mean_of_reals by (destruct bars; [contradiction|discriminate]).
  pose proof ln_2_pos as Hln.
  rewrite log_of_pos by lra. cbn [fmul lift2].
  rewrite fdiv_nonzero by lra. cbn [fmul lift2].
  fold (parkinson_radicand bars).
  rewrite sqrt_of_nonneg by apply parkinson_radicand_nonneg.
  destruct annualize; [|reflexivity].
  rewrite sqrt_of_nonneg by lra. reflexivity.
Qed.

(** X1.  The Parkinson estimator needs positive highs and lows and nothing
    else: on a non-empty window of such bars it is a number, the square
    root of the radicand, times [sqrt 252] when annualized; it does not
    notice a high below the low. *)
Theorem parkinson_on_positive_range (bars : list Bar) (annualize : bool) :
  bars <> [] ->
  Forall (fun b => 0 < bar_high b /\ 0 < bar_low b) bars ->
  calculate_parkinson_volatility (frame_of bars) annualize
  = Fin (if annualize
         then sqrt (parkinson_radicand bars) * sqrt 252
         else sqrt (parkinson_radicand bars)).
Proof. exact (parkinson_of_radicand bars annualize). Qed.

Lemma days_positive (y : Z) (n : nat) : Forall positive_prices (days y n).
Proof.
  unfold days. apply Forall_forall. intros b Hb.
  apply in_map_iff in Hb as (d & <- & _).
  unfold positive_prices. cbn. lra.
Qed.

Lemma days_valid (y : Z) (n : nat) : Forall valid_bar (days y n).
Proof.
  unfold days. apply Forall_forall. intros b Hb.
  apply in_map_iff in Hb as (d & <- & _).
  unfold valid_bar. cbn. lra.
Qed.

Lemma parkinson_on_positive_range_witness :
  calculate_parkinson_volatility (frame_of (days 2021 10)) true
  = Fin (sqrt (parkinson_radicand (days 2021 10)) * sqrt 252).
Proof.
  apply (parkinson_on_positive_range (days 2021 10) true).
  - discriminate.
  - eapply Forall_impl; [|apply (days_positive 2021 10)].
    unfold positive_prices. tauto.
Defined.

Lemma ln_le_compat (x y : R) : 0 < x -> x <= y -> ln x <= ln y.
Proof.
  intros Hx [Hlt| ->]; [left; now apply ln_increasing|right; reflexivity].
Qed.

(** Inside a valid bar the close-to-open log move is no larger than the
    high-to-low log range. *)
Lemma valid_bar_log_bound (b : Bar) :
  valid_bar b ->
  Rsqr (ln (bar_close b / bar_open b)) <= Rsqr (ln (bar_high b / bar_low b)).
Proof.
  intros (Hl & [Ho1 Ho2] & [Hc1 Hc2]).
  set (l := bar_low b) in *. set (h := bar_high b) in *.
  set (o := bar_open b) in *. set (c := bar_close b) in *.
  assert (Hh : 0 < h) by lra. assert (Ho : 0 < o) by lra.
  assert (Hc : 0 < c) by lra.
  assert (Hup : c / o <= h / l).
  { apply (Rmult_le_reg_r (o * l)); [nra|].
    replace (c / o * (o * l)) with (c * l) by (field; lra).
    replace (h / l * (o * l)) with (h * o) by (field; lra). nra. }
  assert (Hdown : / (h / l) <= c / o).
  { replace (/ (h / l)) with (l / h) by (field; lra).
    apply (Rmult_le_reg_r (o * h)); [nra|].
    replace (l / h * (o * h)) with (l * o) by (field; lra).
    replace (c / o * (o * h)) with (c * h) by (field; lra). nra. }
  assert (Hr : 0 < h / l) by (apply Rdiv_lt_0_compat; lra).
  assert (Hx : 0 < c / o) by (apply Rdiv_lt_0_compat; lra).
  pose proof (ln_le_compat _ _ Hx Hup) as H1.
  pose proof (ln_le_compat _ _ (Rinv_0_lt_compat _ Hr) Hdown) as H2.
  rewrite ln_Rinv in H2 by exact Hr.
  unfold Rsqr. nra.
Qed.

Lemma valid_bar_positive (b : Bar) : valid_bar b -> positive_prices b.
Proof. unfold valid_bar, positive_prices. intros (? & [? ?] & [? ?]). lra. Qed.

Lemma gk_radicand_nonneg (bars : list Bar) :
  Forall valid_bar bars -> 0 <= gk_radicand bars.
Proof.
  intros Hv. unfold gk_radicand.
  pose proof (sample_mean_squares_nonneg
                (fun b => ln (bar_close b / bar_open b)) bars) as Hc.
  pose proof (sample_mean_le
                (fun b => Rsqr (ln (bar_close b / bar_open b)))
                (fun b => Rsqr (ln (bar_high b / bar_low b))) bars) as Hle.
  cbv beta in Hle.
  assert (Hall : Forall (fun b => Rsqr (ln (bar_close b / bar_open b))
                                  <= Rsqr (ln (bar_high b / bar_low b))) bars).
  { eapply Forall_impl; [|exact Hv]. apply valid_bar_log_bound. }
  specialize (Hle Hall).
  pose proof ln_lt_2. pose proof ln_2_upper. nra.
Qed.

(** X2.  On a non-empty window of valid bars the Garman-Klass radicand is not
    negative, so the estimator is a number: the square root of the
    radicand, times [sqrt 252] when annualized. *)
Theorem garman_klass_on_valid_bars (bars : list Bar) (annualize : bool) :
  bars <> [] ->
  Forall valid_bar bars ->
  0 <= gk_radicand bars /\
  calculate_garman_klass_volatility (frame_of bars) annualize
  = Fin (if annualize
         then sqrt (gk_radicand bars) * sqrt 252
         else sqrt (gk_radicand bars)).
Proof.
  intros Hne Hv. pose proof (gk_radicand_nonneg bars Hv) as Hrad.
  split; [exact Hrad|].
  rewrite garman_klass_radicand;
    [|exact Hne|eapply Forall_impl; [|exact Hv]; apply valid_bar_positive].
  cbv zeta. rewrite sqrt_of_nonneg by exact Hrad.
  destruct annualize; [|reflexivity].
  rewrite sqrt_of_nonneg by lra. reflexivity.
Qed.

Lemma garman_klass_on_valid_bars_witness :
  0 <= gk_radicand (days 2021 10) /\
  calculate_garman_klass_volatility (frame_of (days 2021 10)) true
  = Fin (sqrt (gk_radicand (days 2021 10)) * sqrt 252).
Proof.
  apply (garman_klass_on_valid_bars (days 2021 10) true).
  - discriminate.
  - apply days_valid.
Defined.

Lemma sample_mean_zeros {A} (f : A -> R) (l : list A) :
  Forall (fun b => f b = 0) l -> sample_mean (map f l) = 0.
Proof.
  intros H. unfold sample_mean.
  assert (Hs : Rsum (map f l) = 0).
  { induction H as [|x t Hx Ht IH]; cbn [map Rsum fold_right]; [reflexivity|].
    unfold Rsum in IH. lra. }
  rewrite Hs. apply Rdiv_0_l.
Qed.

Lemma squared_log_of_equal (x y : R) : 0 < y -> x = y -> Rsqr (ln (x / y)) = 0.
Proof.
  intros Hy ->. replace (y / y) with 1 by (field; lra).
  rewrite ln_1. apply Rsqr_0.
Qed.

(** X3.  Bars that do not move: with positive prices, high equal to low and
    close equal to open on every bar of a non-empty window, the Parkinson
    and the Garman-Klass estimator are both exactly zero, annualized or
    not. *)
Theorem range_estimators_vanish_on_flat_bars
    (bars : list Bar) (annualize : bool) :
  bars <> [] ->
  Forall (fun b => positive_prices b /\
                   bar_high b = bar_low b /\ bar_close b = bar_open b) bars ->
  calculate_parkinson_volatility (frame_of bars) annualize = Fin 0 /\
  calculate_garman_klass_volatility (frame_of bars) annualize = Fin 0.
Proof.
  intros Hne Hflat.
  assert (Hpos : Forall positive_prices bars)
    by (eapply Forall_impl; [|exact Hflat]; cbv beta; tauto).
  assert (Hhl : sample_mean
                  (map (fun b => Rsqr (ln (bar_high b / bar_low b))) bars) = 0).
  { apply sample_mean_zeros. eapply Forall_impl; [|exact Hflat].
    intros b ((_ & _ & Hl & _) & Heq & _). now apply squared_log_of_equal. }
  assert (Hco : sample_mean
                  (map (fun b => Rsqr (ln (bar_close b / bar_open b))) bars) = 0).
  { apply sample_mean_zeros. eapply Forall_impl; [|exact Hflat].
    intros b ((Ho & _) & _ & Heq). now apply squared_log_of_equal. }
  assert (Hp : parkinson_radicand bars = 0)
    by (unfold parkinson_radicand; rewrite Hhl; ring).
  assert (Hg : gk_radicand bars = 0)
    by (unfold gk_radicand; rewrite Hhl, Hco; ring).
  split.
  - rewrite parkinson_of_radicand;
      [|exact Hne|eapply Forall_impl; [|exact Hpos]; unfold positive_prices; tauto].
    rewrite Hp, sqrt_0. destruct annualize; f_equal; ring.
  - rewrite garman_klass_radicand by assumption.
    cbv zeta. rewrite Hg, sqrt_of_nonneg by lra. rewrite sqrt_0.
    destruct annualize; [|reflexivity].
    rewrite sqrt_of_nonneg by lra. cbn. f_equal. ring.
Qed.

Lemma flat_is_flat :
  Forall (fun b => positive_prices b /\
                   bar_high b = bar_low b /\ bar_close b = bar_open b) flat.
Proof.
  unfold flat. apply Forall_forall. intros b Hb.
  apply in_map_iff in Hb as (d & <- & _).
  unfold positive_prices. cbn. repeat split; lra.
Qed.

Lemma range_estimators_vanish_on_flat_bars_witness :
  calculate_parkinson_volatility (frame_of flat) true = Fin 0 /\
  calculate_garman_klass_volatility (frame_of flat) true = Fin 0.
Proof.
  apply (range_estimators_vanish_on_flat_bars flat true).
  - discriminate.
  - exact flat_is_flat.
Defined.

(** ** More on the average true range *)

Lemma moving_averages_nil_iff (period : nat) (xs : list R) :
  moving_averages period xs = [] <-> (length xs < period)%nat.
Proof.
  unfold moving_averages. split.
  - intros H. apply (f_equal (@length R)) in H.
    rewrite length_map, length_seq in H. simpl in H. lia.
  - intros H. replace (length xs + 1 - period)%nat with 0%nat by lia.
    reflexivity.
Qed.

(** X4.  On bars with real prices the estimator is a number exactly when the
    window has at least [period] bars. *)
Theorem atr_defined_iff_full_window (bars : list Bar) (period : nat) :
  (1 <= period)%nat ->
  calculate_atr (frame_of bars) period <> NaN
  <-> (period <= length bars)%nat.
Proof.
  intros Hp. rewrite calculate_atr_of_bars by exact Hp.
  unfold average_true_range.
  pose proof (moving_averages_nil_iff period (true_ranges bars)) as Hnil.
  rewrite true_ranges_length in Hnil.
  destruct (moving_averages period (true_ranges bars)) as [|a ma].
  - split; [intros H; now contradiction H|].
    intros H. assert (length bars < period)%nat by (now apply Hnil). lia.
  - split; [|discriminate].
    intros _. destruct (Nat.le_gt_cases period (length bars)) as [H|H]; [exact H|].
    apply Hnil in H. discriminate.
Qed.

Lemma atr_defined_iff_full_window_witness :
  calculate_atr (frame_of (days 2021 14)) 14 <> NaN
  <-> (14 <= length (days 2021 14))%nat.
Proof.
  apply (atr_defined_iff_full_window (days 2021 14) 14). lia.
Defined.

Lemma true_range_after_nonneg (c : R) (b : Bar) : 0 <= true_range_after c b.
Proof.
  unfold true_range_after.
  pose proof (Rabs_pos (bar_high b - c)).
  pose proof (Rmax_l (Rabs (bar_high b - c)) (Rabs (bar_low b - c))).
  pose proof (Rmax_r (bar_high b - bar_low b)
                (Rmax (Rabs (bar_high b - c)) (Rabs (bar_low b - c)))).
  lra.
Qed.

Lemma true_ranges_from_nonneg (t : list Bar) (c : R) :
  Forall (fun x => 0 <= x) (true_ranges_from c t).
Proof.
  revert c; induction t as [|b t IH]; intros c; cbn [true_ranges_from];
    constructor; [apply true_range_after_nonneg|apply IH].
Qed.

Lemma Forall_firstn_skipn {A} (P : A -> Prop) (n k : nat) (l : list A) :
  Forall P l -> Forall P (firstn n (skipn k l)).
Proof.
  intros H. rewrite Forall_forall in H |- *. intros x Hx.
  apply H.
  rewrite <- (firstn_skipn k l). apply in_or_app. right.
  rewrite <- (firstn_skipn n (skipn k l)). apply in_or_app. now left.
Qed.

(** X5.  When the first bar has its high at or above its low, no true range is
    negative, and the estimator on a window of at least [period] bars is a
    non-negative number.  After the first bar the true range is at least
    an absolute value, whatever the bar. *)
Theorem atr_nonnegative (b : Bar) (t : list Bar) (period : nat) :
  bar_low b <= bar_high b ->
  (1 <= period <= length (b :: t))%nat ->
  exists v, calculate_atr (frame_of (b :: t)) period = Fin v /\ 0 <= v.
Proof.
  intros Hb [Hp Hlen]. rewrite calculate_atr_of_bars by exact Hp.
  unfold average_true_range.
  assert (Hnonneg : Forall (fun x => 0 <= x) (true_ranges (b :: t))).
  { cbn [true_ranges]. constructor; [lra|apply true_ranges_from_nonneg]. }
  assert (Hma : Forall (fun x => 0 <= x)
                       (moving_averages period (true_ranges (b :: t)))).
  { unfold moving_averages. apply Forall_forall. intros x Hx.
    apply in_map_iff in Hx as (k & <- & _).
    apply sample_mean_nonneg. now apply Forall_firstn_skipn. }
  destruct (moving_averages period (true_ranges (b :: t))) as [|a ma] eqn:E.
  - apply moving_averages_nil_iff in E. rewrite true_ranges_length in E. lia.
  - eexists. split; [reflexivity|]. now apply sample_mean_nonneg.
Qed.

Lemma atr_nonnegative_witness :
  exists v,
    calculate_atr (frame_of (first_of_2021 :: days 2021 13)) 14 = Fin v /\
    0 <= v.
Proof.
  apply (atr_nonnegative first_of_2021 (days 2021 13) 14).
  - cbn. lra.
  - cbn. lia.
Defined.

(** ** More on realized volatility *)

Lemma std_too_few (s : Series) :
  (length (dropna s) <= 1)%nat -> pd.std s = NaN.
Proof.
  intros H. unfold pd.std.
  destruct (Nat.leb_spec (length (dropna s)) 1); [reflexivity|lia].
Qed.

Lemma realized_volatility_nonneg (returns : Series) (annualize : bool) (v : R) :
  calculate_realized_volatility returns annualize = Fin v -> 0 <= v.
Proof.
  destruct (Nat.le_gt_cases 2 (length (dropna returns))) as [Hge|Hlt].
  - assert (Hs : 0 <= sample_std (dropna returns))
      by (unfold sample_std; apply sqrt_pos).
    pose proof (sqrt_pos 252) as H252.
    unfold calculate_realized_volatility.
    rewrite (std_sample_std returns Hge), sqrt_of_nonneg by lra.
    destruct annualize; cbn [fmul lift2]; intros Hv; injection Hv as <-;
      [apply Rmult_le_pos|]; assumption.
  - unfold calculate_realized_volatility.
    rewrite std_too_few by lia. destruct annualize; discriminate.
Qed.

(** X6.  With fewer than two non-missing returns realized volatility is
    the missing value, not zero and not an exception; and whenever
    realized volatility is a number, that number is not negative. *)
Theorem realized_volatility_needs_two_returns
    (returns : Series) (annualize : bool) :
  ((length (dropna returns) < 2)%nat ->
   calculate_realized_volatility returns annualize = NaN) /\
  (forall v, calculate_realized_volatility returns annualize = Fin v -> 0 <= v).
Proof.
  split; [|apply realized_volatility_nonneg].
  intros Hlt. unfold calculate_realized_volatility.
  rewrite std_too_few by lia. now destruct annualize.
Qed.

Lemma realized_volatility_needs_two_returns_witness :
  calculate_realized_volatility [NaN; Fin 1] true = NaN.
Proof.
  apply (proj1 (realized_volatility_needs_two_returns [NaN; Fin 1] true)).
  simpl. lia.
Defined.

Lemma Rsum_constant (c : R) (xs : list R) :
  Forall (fun x => x = c) xs -> Rsum xs = INR (length xs) * c.
Proof.
  induction 1 as [|x t Hx Ht IH]; [cbn; ring|].
  change (Rsum (x :: t)) with (x + Rsum t).
  rewrite IH, Hx. cbn [length]. rewrite S_INR. ring.
Qed.

Lemma realized_volatility_of_zero_returns
    (returns : Series) (annualize : bool) :
  (2 <= length (dropna returns))%nat ->
  Forall (fun x => x = 0) (dropna returns) ->
  calculate_realized_volatility returns annualize = Fin 0.
Proof.
  intros Hn Hc. unfold calculate_realized_volatility.
  rewrite (std_sample_std returns Hn).
  assert (Hz : sample_std (dropna returns) = 0).
  { unfold sample_std, sample_mean.
    rewrite (Rsum_constant 0 (dropna returns) Hc).
    rewrite Rmult_0_r. unfold Rdiv at 2. rewrite Rmult_0_l.
    rewrite (Rsum_constant 0).
    - rewrite Rmult_0_r. unfold Rdiv. rewrite Rmult_0_l. apply sqrt_0.
    - apply Forall_forall. intros x Hx.
      apply in_map_iff in Hx as (z & <- & Hz).
      rewrite Forall_forall in Hc. rewrite (Hc z Hz).
      unfold Rsqr. ring. }
  rewrite Hz. destruct annualize; [|reflexivity].
  rewrite sqrt_of_nonneg by lra. cbn. f_equal. ring.
Qed.

Lemma dropna_translate (k : R) (s : Series) :
  dropna (map (fun x => fadd x (Fin k)) s) = map (fun x => x + k) (dropna s).
Proof.
  induction s as [|[|r] t IH]; cbn [map dropna fadd lift2]; [| |rewrite IH];
    auto.
Qed.

Lemma Rsum_translate (k : R) (xs : list R) :
  Rsum (map (fun x => x + k) xs) = Rsum xs + INR (length xs) * k.
Proof.
  induction xs as [|x t IH]; [cbn; ring|].
  change (Rsum (map (fun x => x + k) (x :: t)))
    with (x + k + Rsum (map (fun x => x + k) t)).
  rewrite IH. change (Rsum (x :: t)) with (x + Rsum t).
  change (length (x :: t)) with (S (length t)). rewrite S_INR. ring.
Qed.

(** X8.  The deviations are taken about the window's own mean: adding the same
    drift [k] to every return leaves realized volatility as it was. *)
Theorem realized_volatility_ignores_drift
    (returns : Series) (k : R) (annualize : bool) :
  calculate_realized_volatility (map (fun x => fadd x (Fin k)) returns) annualize
  = calculate_realized_volatility returns annualize.
Proof.
  assert (Hstd : pd.std (map (fun x => fadd x (Fin k)) returns)
                 = pd.std returns).
  { unfold pd.std. rewrite dropna_translate, length_map.
    set (xs := dropna returns). set (n := length xs).
    destruct (Nat.leb_spec n 1) as [Hle|Hgt]; [reflexivity|].
    do 3 f_equal. rewrite Rsum_translate, map_map. fold n.
    assert (Hne : INR n <> 0) by (apply not_0_INR; lia).
    f_equal. apply map_ext. intros x. field. exact Hne. }
  unfold calculate_realized_volatility. now rewrite Hstd.
Qed.

(** ** More on log returns *)

Lemma ln_quotient (x y : R) : 0 < x -> 0 < y -> ln (x / y) = ln x - ln y.
Proof.
  intros Hx Hy. unfold Rdiv.
  rewrite ln_mult by (try apply Rinv_0_lt_compat; assumption).
  rewrite ln_Rinv by exact Hy. ring.
Qed.

Lemma log_returns_of_closes (t : list R) (c0 : R) :
  0 < c0 ->
  Forall (fun c => 0 < c) t ->
  map np.log (adjacent fdiv (Fin c0) (map Fin t)) = map Fin (log_returns c0 t).
Proof.
  intros Hc0 Ht. revert c0 Hc0.
  induction Ht as [|x t Hx Ht IH]; intros c0 Hc0; [reflexivity|].
  cbn [map adjacent log_returns]. unfold log_returns in IH.
  rewrite IH by exact Hx.
  rewrite fdiv_nonzero by lra.
  rewrite log_of_pos by (apply Rdiv_lt_0_compat; assumption).
  reflexivity.
Qed.

Lemma returns_of_positive_closes (df : DataFrame) (c0 : R) (t : list R) :
  close df = map Fin (c0 :: t) ->
  Forall (fun c => 0 < c) (c0 :: t) ->
  returns (calculate_returns df) = Some (NaN :: map Fin (log_returns c0 t)).
Proof.
  intros Hc Hpos. inversion Hpos as [|? ? Hc0 Ht]; subst.
  rewrite (returns_of_closes df c0 t Hc).
  now rewrite log_returns_of_closes.
Qed.

Lemma last_cons {A} (x d : A) (t : list A) : last (x :: t) d = last t x.
Proof.
  revert x d; induction t as [|y t IH]; intros x d; [reflexivity|].
  change (last (x :: y :: t) d) with (last (y :: t) d).
  now rewrite !IH.
Qed.

Lemma Rsum_log_returns (t : list R) (c0 : R) :
  0 < c0 ->
  Forall (fun c => 0 < c) t ->
  Rsum (log_returns c0 t) = ln (last t c0) - ln c0 /\ 0 < last t c0.
Proof.
  intros Hc0 Ht. revert c0 Hc0.
  induction Ht as [|x t Hx Ht IH]; intros c0 Hc0.
  - cbn. split; [ring|exact Hc0].
  - destruct (IH x Hx) as [Hsum Hlast].
    rewrite last_cons. split; [|exact Hlast].
    change (Rsum (log_returns c0 (x :: t)))
      with (ln (x / c0) + Rsum (log_returns x t)).
    rewrite Hsum, ln_quotient by assumption. ring.
Qed.

(** X9.  Log returns add up: on positive closes the non-missing returns of the
    column sum to the logarithm of the last close over the first. *)
Theorem log_returns_telescope (df : DataFrame) (c0 : R) (t : list R) :
  close df = map Fin (c0 :: t) ->
  Forall (fun c => 0 < c) (c0 :: t) ->
  exists r,
    returns (calculate_returns df) = Some r /\
    Rsum (dropna r) = ln (last t c0 / c0).
Proof.
  intros Hc Hpos. eexists.
  split; [apply (returns_of_positive_closes df c0 t Hc Hpos)|].
  inversion Hpos as [|? ? Hc0 Ht]; subst.
  cbn [dropna]. rewrite dropna_map_Fin.
  destruct (Rsum_log_returns t c0 Hc0 Ht) as [Hsum Hlast].
  rewrite Hsum, ln_quotient by assumption. reflexivity.
Qed.

Lemma log_returns_telescope_witness :
  exists r,
    returns (calculate_returns loaded) = Some r /\
    Rsum (dropna r) = ln (last (repeat 105 9) 105 / 105).
Proof.
  apply (log_returns_telescope loaded 105 (repeat 105 9)).
  - reflexivity.
  - cbn. repeat (constructor; [lra|]). constructor.
Defined.

(** ** More on the aggregator *)

Lemma year_loop_skips (df : DataFrame) (years : list Z)
    (results : list YearSummary) :
  Forall (fun y => qualifies (index_years df) y = false) years ->
  year_loop (with_years df) (index_years df) years results = inr results.
Proof.
  induction 1 as [|y rest Hy Hrest IH]; [reflexivity|].
  cbn [year_loop].
  rewrite (year_slice_len df y : len (year_slice (with_years df) _ y) = _).
  unfold qualifies in Hy. apply Nat.leb_gt in Hy.
  destruct (Nat.ltb_spec (trading_days (index_years df) y) 10); [exact IH|lia].
Qed.

(** X10.  When no year of the index has ten rows, which includes the empty
    frame, the call raises nothing and returns the empty table, whether
    the frame has a returns column or not. *)
Theorem no_qualifying_year_gives_empty_table (df : DataFrame) :
  (forall y, (trading_days (index_years df) y < 10)%nat) ->
  snd (analyze_volatility_by_year df) = inr [].
Proof.
  intros Hshort. rewrite analyze_unfold. cbn [snd].
  apply year_loop_skips, Forall_forall. intros y _.
  unfold qualifies. apply Nat.leb_gt, Hshort.
Qed.

Lemma no_qualifying_year_gives_empty_table_witness :
  snd (analyze_volatility_by_year (frame_of (days 2020 9))) = inr [].
Proof.
  apply (no_qualifying_year_gives_empty_table (frame_of (days 2020 9))).
  intros y. unfold trading_days.
  destruct (Z.eq_dec y 2020) as [->|Hne]; [vm_compute; lia|].
  rewrite (proj1 (count_occ_not_In Z.eq_dec _ y)); [lia|].
  intros Hin. vm_compute in Hin. intuition congruence.
Defined.

Lemma year_loop_missing_returns (df : DataFrame) (years : list Z)
    (results : list YearSummary) :
  returns df = None ->
  year_loop (with_years df) (index_years df) years results
  = if existsb (qualifies (index_years df)) years
    then inl (KeyError "returns")
    else inr results.
Proof.
  intros Hr. revert results; induction years as [|y rest IH]; intros results;
    [reflexivity|].
  cbn [year_loop existsb].
  rewrite (year_slice_len df y : len (year_slice (with_years df) _ y) = _).
  unfold qualifies at 1.
  destruct (Nat.ltb_spec (trading_days (index_years df) y) 10) as [Hlt|Hge].
  - destruct (Nat.leb_spec 10 (trading_days (index_years df) y)); [lia|].
    apply IH.
  - destruct (Nat.leb_spec 10 (trading_days (index_years df) y)); [|lia].
    unfold year_metrics, getitem_returns, year_slice, select_rows, with_years,
      set_year. cbn [returns]. rewrite Hr. reflexivity.
Qed.

(** X11.  The aggregator on a frame on which [calculate_returns] has not run:
    as soon as some year has its ten rows, the call ends with
    [KeyError 'returns'] and no table. *)
Theorem missing_returns_column_raises (df : DataFrame) (y : Z) :
  returns df = None ->
  (10 <= trading_days (index_years df) y)%nat ->
  snd (analyze_volatility_by_year df) = inl (KeyError "returns").
Proof.
  intros Hr Hy. rewrite analyze_unfold. cbn [snd].
  rewrite year_loop_missing_returns by exact Hr.
  assert (Hex : existsb (qualifies (index_years df))
                        (sorted (unique (index_years df))) = true).
  { apply existsb_exists. exists y. split.
    - apply sorted_In, unique_In, qualifies_In.
      unfold qualifies. now apply Nat.leb_le.
    - unfold qualifies. now apply Nat.leb_le. }
  now rewrite Hex.
Qed.

Lemma missing_returns_column_raises_witness :
  snd (analyze_volatility_by_year loaded) = inl (KeyError "returns").
Proof.
  apply (missing_returns_column_raises loaded 2021%Z).
  - reflexivity.
  - vm_compute. lia.
Defined.

Lemma select_filter {A B} (p : A -> bool) (g : A -> B) (l : list A) :
  select (map p l) (map g l) = map g (filter p l).
Proof.
  induction l as [|x t IH]; [reflexivity|].
  cbn [map select filter]. destruct (p x); cbn [map]; now rewrite IH.
Qed.

Lemma year_mask_of_bars (y : Z) (bars : list Bar) :
  map (fun z => (z =? y)%Z) (map ts_year (map bar_time bars))
  = map (fun b => (ts_year (bar_time b) =? y)%Z) bars.
Proof. now rewrite !map_map. Qed.

Lemma trading_days_year_bars (y : Z) (bars : list Bar) :
  trading_days (map ts_year (map bar_time bars)) y = length (year_bars y bars).
Proof.
  unfold trading_days, year_bars.
  induction bars as [|b t IH]; [reflexivity|].
  cbn [map count_occ filter].
  destruct (Z.eq_dec (ts_year (bar_time b)) y) as [Heq|Hne];
    destruct (Z.eqb_spec (ts_year (bar_time b)) y); try contradiction;
    cbn [length]; now rewrite IH.
Qed.

(** The price columns of a year's slice are those of the year's bars. *)
Lemma year_slice_prices (y : Z) (bars : list Bar) :
  let df := calculate_returns (frame_of bars) in
  let yd := year_slice (with_years df) (index_years df) y in
  open yd = open (frame_of (year_bars y bars)) /\
  high yd = high (frame_of (year_bars y bars)) /\
  low yd = low (frame_of (year_bars y bars)) /\
  close yd = close (frame_of (year_bars y bars)).
Proof.
  cbv zeta.
  unfold year_slice, select_rows, with_years, set_year, index_years,
    calculate_returns, set_returns, frame_of.
  cbn [index open high low close]. rewrite year_mask_of_bars.
  unfold year_bars. now rewrite !select_filter.
Qed.

Lemma parkinson_reads_high_low (d1 d2 : DataFrame) (annualize : bool) :
  high d1 = high d2 -> low d1 = low d2 ->
  calculate_parkinson_volatility d1 annualize
  = calculate_parkinson_volatility d2 annualize.
Proof.
  intros Hh Hl. unfold calculate_parkinson_volatility. now rewrite Hh, Hl.
Qed.

Lemma garman_klass_reads_prices (d1 d2 : DataFrame) (annualize : bool) :
  open d1 = open d2 -> high d1 = high d2 ->
  low d1 = low d2 -> close d1 = close d2 ->
  calculate_garman_klass_volatility d1 annualize
  = calculate_garman_klass_volatility d2 annualize.
Proof.
  intros Ho Hh Hl Hc. unfold calculate_garman_klass_volatility.
  now rewrite Ho, Hh, Hl, Hc.
Qed.

Lemma atr_reads_high_low_close (d1 d2 : DataFrame) (period : nat) :
  high d1 = high d2 -> low d1 = low d2 -> close d1 = close d2 ->
  calculate_atr d1 period = calculate_atr d2 period.
Proof.
  intros Hh Hl Hc. unfold calculate_atr, true_range. now rewrite Hh, Hl, Hc.
Qed.

Lemma year_metrics_inv_prices (y : Z) (yd : DataFrame) (m : YearSummary) :
  year_metrics y yd = inr m ->
  Parkinson_Volatility m
    = fmul (calculate_parkinson_volatility yd true) (Fin 100) /\
  Avg_Daily_Range m
    = pd.mean (map (fun x => fmul x (Fin 100))
                   (zip_with fdiv (zip_with fsub (high yd) (low yd))
                             (close yd))) /\
  exists c cs,
    close yd = c :: cs /\
    Annual_Return m
      = fmul (fsub (fdiv (last cs c) c) (Fin 1)) (Fin 100).
Proof.
  unfold year_metrics, getitem_returns.
  destruct (returns yd) as [r|]; [|discriminate].
  destruct (close yd) as [|c cs] eqn:Hc; [discriminate|].
  cbn [bind ret pd.iloc_last pd.iloc_first].
  intros H. injection H as <-. cbn.
  repeat split. exists c, cs. split; reflexivity.
Qed.

(** The record of a year of a series of bars that has its ten bars. *)
Lemma record_of_year (bars : list Bar) (y : Z) :
  (10 <= length (year_bars y bars))%nat ->
  let df := calculate_returns (frame_of bars) in
  exists res m,
    snd (analyze_volatility_by_year df) = inr res /\
    In m res /\
    year_metrics y (year_slice (with_years df) (index_years df) y) = inr m.
Proof.
  intros Hlen df.
  destruct (analyze_returns df
              (map np.log (zip_with fdiv (close df) (pd.shift (close df)))))
    as (res & Hres & Hy & Hall).
  - apply calculate_returns_well_formed.
  - reflexivity.
  - assert (Hin : In y (map Year res)).
    { rewrite Hy. apply qualifying_years_In.
      change (index_years df) with (map ts_year (map bar_time bars)).
      now rewrite trading_days_year_bars. }
    apply in_map_iff in Hin as (m & HYm & Hm).
    exists res, m. split; [exact Hres|]. split; [exact Hm|].
    rewrite Forall_forall in Hall. specialize (Hall m Hm).
    now rewrite HYm in Hall.
Qed.

(** X12.  The range-based fields of a year's record are computed from the bars
    of that year alone: the Parkinson and Garman-Klass fields are the
    estimators on the year's bars, and the ATR field is the average true
    range of the year's bars, whose first bar has no previous close even
    when the series has earlier bars. *)
Theorem range_fields_use_own_year (bars : list Bar) (y : Z) :
  (10 <= length (year_bars y bars))%nat ->
  exists res m,
    snd (analyze_volatility_by_year (calculate_returns (frame_of bars)))
      = inr res /\
    In m res /\
    Year m = y /\
    Trading_Days m = length (year_bars y bars) /\
    Parkinson_Volatility m
      = fmul (calculate_parkinson_volatility (frame_of (year_bars y bars)) true)
             (Fin 100) /\
    Garman_Klass_Volatility m
      = fmul (calculate_garman_klass_volatility
                (frame_of (year_bars y bars)) true)
             (Fin 100) /\
    Avg_ATR m = average_true_range 14 (year_bars y bars).
Proof.
  intros Hlen.
  destruct (record_of_year bars y Hlen) as (res & m & Hres & Hm & Hmet).
  exists res, m. split; [exact Hres|]. split; [exact Hm|].
  destruct (year_metrics_inv _ _ _ Hmet) as (HY & Hdays & Hgk & Hatr & _).
  destruct (year_metrics_inv_prices _ _ _ Hmet) as (Hpk & _).
  destruct (year_slice_prices y bars) as (Ho & Hh & Hl & Hc).
  split; [exact HY|]. split.
  { rewrite Hdays.
    rewrite (year_slice_len (calculate_returns (frame_of bars)) y
             : len (year_slice (with_years _) _ y) = _).
    apply trading_days_year_bars. }
  split; [rewrite Hpk; f_equal; now apply parkinson_reads_high_low|].
  split; [rewrite Hgk; f_equal; now apply garman_klass_reads_prices|].
  rewrite Hatr, <- calculate_atr_of_bars by lia.
  now apply atr_reads_high_low_close.
Qed.

Lemma range_fields_use_own_year_witness :
  exists res m,
    snd (analyze_volatility_by_year
           (calculate_returns (frame_of (days 2020 9 ++ days 2021 10))))
      = inr res /\
    In m res /\
    Year m = 2021%Z /\
    Trading_Days m = length (year_bars 2021 (days 2020 9 ++ days 2021 10)) /\
    Parkinson_Volatility m
      = fmul (calculate_parkinson_volatility
                (frame_of (year_bars 2021 (days 2020 9 ++ days 2021 10))) true)
             (Fin 100) /\
    Garman_Klass_Volatility m
      = fmul (calculate_garman_klass_volatility
                (frame_of (year_bars 2021 (days 2020 9 ++ days 2021 10))) true)
             (Fin 100) /\
    Avg_ATR m = average_true_range 14 (year_bars 2021 (days 2020 9 ++ days 2021 10)).
Proof.
  apply (range_fields_use_own_year (days 2020 9 ++ days 2021 10) 2021%Z).
  vm_compute. lia.
Defined.

Lemma last_of_map {A B} (f : A -> B) (l : list A) (d : A) :
  last (map f l) (f d) = f (last l d).
Proof.
  induction l as [|x t IH]; [reflexivity|].
  cbn [map]. rewrite !last_cons. clear IH.
  revert x; induction t as [|z t IH]; intros x; [reflexivity|].
  cbn [map]. rewrite !last_cons. apply IH.
Qed.

(** X13.  The annual return of a year's record: the close of the year's last
    bar over the close of its first bar, minus one, in percent. *)
Theorem annual_return_of_year (bars rest : list Bar) (first : Bar) (y : Z) :
  year_bars y bars = first :: rest ->
  (9 <= length rest)%nat ->
  bar_close first <> 0 ->
  exists res m,
    snd (analyze_volatility_by_year (calculate_returns (frame_of bars)))
      = inr res /\
    In m res /\
    Year m = y /\
    Annual_Return m
      = Fin ((bar_close (last rest first) / bar_close first - 1) * 100).
Proof.
  intros Hyear Hrest Hfirst.
  assert (Hlen : (10 <= length (year_bars y bars))%nat)
    by (rewrite Hyear; cbn [length]; lia).
  destruct (record_of_year bars y Hlen) as (res & m & Hres & Hm & Hmet).
  exists res, m. split; [exact Hres|]. split; [exact Hm|].
  destruct (year_metrics_inv _ _ _ Hmet) as (HY & _).
  destruct (year_metrics_inv_prices _ _ _ Hmet) as (_ & _ & c & cs & Hc & Hret).
  destruct (year_slice_prices y bars) as (_ & _ & _ & Hclose).
  rewrite Hclose, Hyear in Hc. unfold frame_of in Hc. cbn [close map] in Hc.
  injection Hc as <- <-.
  split; [exact HY|]. rewrite Hret.
  rewrite (last_of_map (fun b => Fin (bar_close b)) rest first).
  rewrite fdiv_nonzero by exact Hfirst. reflexivity.
Qed.

Lemma annual_return_of_year_witness :
  exists res m,
    snd (analyze_volatility_by_year (calculate_returns (frame_of (days 2021 10))))
      = inr res /\
    In m res /\
    Year m = 2021%Z /\
    Annual_Return m
      = Fin ((bar_close (last rest_of_2021 first_of_2021)
              / bar_close first_of_2021 - 1) * 100).
Proof.
  apply (annual_return_of_year (days 2021 10) rest_of_2021 first_of_2021 2021%Z).
  - reflexivity.
  - cbn. lia.
  - cbn. lra.
Defined.

(** X14.  Running the core again on the frame it left behind: the columns it
    assigned are assigned the same values, so the frame stays as it is and
    the second table is the first; a year column that the frame already
    carried, whatever its content, has no effect on the table. *)
Theorem second_run_changes_nothing (df : DataFrame) (stale : list Z) :
  analyze_volatility_by_year
    (calculate_returns (fst (analyze_volatility_by_year (calculate_returns df))))
  = analyze_volatility_by_year (calculate_returns df) /\
  analyze_volatility_by_year (set_year df stale)
  = analyze_volatility_by_year df.
Proof. split; reflexivity. Qed.

Lemma Rminimum_le_Rmaximum (t : list R) (x y : R) :
  x <= y -> Rminimum x t <= Rmaximum y t.
Proof.
  revert x y; induction t as [|z t IH]; intros x y Hxy; cbn; [exact Hxy|].
  apply IH.
  pose proof (Rmin_r x z). pose proof (Rmax_r y z). lra.
Qed.

Lemma trading_days_of_records (df : DataFrame) (res : list YearSummary) :
  Forall (fun m =>
            year_metrics (Year m)
              (year_slice (with_years df) (index_years df) (Year m))
            = inr m) res ->
  map Trading_Days res = map (trading_days (index_years df)) (map Year res).
Proof.
  induction 1 as [|m res Hm Hres IH]; [reflexivity|].
  cbn [map]. rewrite IH. f_equal.
  destruct (year_metrics_inv _ _ _ Hm) as (_ & Hdays & _).
  rewrite Hdays. apply (year_slice_len df).
Qed.

(** X15.  What holds of every record of the table: it counts at least ten
    trading days; its realized volatility, when it is a number, is not
    negative; its minimum daily return is missing exactly when its maximum
    is, and otherwise is not above it. *)
Theorem records_are_consistent (df : DataFrame) :
  well_formed df ->
  returns df <> None ->
  exists res,
    snd (analyze_volatility_by_year df) = inr res /\
    forall m, In m res ->
      (10 <= Trading_Days m)%nat /\
      (forall v, Realized_Volatility m = Fin v -> 0 <= v) /\
      (Min_Daily_Return m = NaN <-> Max_Daily_Return m = NaN) /\
      (forall lo hi, Min_Daily_Return m = Fin lo ->
                     Max_Daily_Return m = Fin hi -> lo <= hi).
Proof.
  intros Hwf Hr. destruct (returns df) as [r|] eqn:Er; [|contradiction].
  destruct (analyze_returns df r Hwf Er) as (res & Hres & Hy & Hall).
  exists res. split; [exact Hres|]. intros m Hm.
  rewrite Forall_forall in Hall.
  destruct (year_metrics_inv _ _ _ (Hall m Hm))
    as (_ & Hdays & _ & _ & w & _ & Hvol & Hmax & Hmin).
  split.
  { rewrite Hdays,
      (year_slice_len df (Year m) : len (year_slice (with_years df) _ _) = _).
    apply qualifying_years_In. rewrite <- Hy. now apply in_map. }
  split.
  { intros v Hv. rewrite Hvol in Hv.
    destruct (calculate_realized_volatility w true) as [|s] eqn:Es;
      [discriminate|].
    cbn in Hv. injection Hv as <-.
    pose proof (realized_volatility_nonneg w true s Es). lra. }
  rewrite Hmax, Hmin. unfold pd.max, pd.min.
  destruct (dropna w) as [|x t].
  - split; [split; reflexivity|]. intros lo hi H. discriminate.
  - split; [split; discriminate|].
    intros lo hi Hlo Hhi. cbn in Hlo, Hhi.
    injection Hlo as <-. injection Hhi as <-.
    pose proof (Rminimum_le_Rmaximum t x x (Rle_refl x)). nra.
Qed.

Lemma records_are_consistent_witness :
  exists res,
    snd (analyze_volatility_by_year short_then_ten) = inr res /\
    forall m, In m res ->
      (10 <= Trading_Days m)%nat /\
      (forall v, Realized_Volatility m = Fin v -> 0 <= v) /\
      (Min_Daily_Return m = NaN <-> Max_Daily_Return m = NaN) /\
      (forall lo hi, Min_Daily_Return m = Fin lo ->
                     Max_Daily_Return m = Fin hi -> lo <= hi).
Proof.
  apply (records_are_consistent short_then_ten).
  - apply calculate_returns_well_formed.
  - discriminate.
Defined.

Lemma list_sum_indicator (Y : list Z) (a : Z) :
  NoDup Y ->
  list_sum (map (fun y => if Z.eq_dec a y then 1%nat else 0%nat) Y)
  = if existsb (Z.eqb a) Y then 1%nat else 0%nat.
Proof.
  induction 1 as [|y Y Hy Hnd IH]; [reflexivity|].
  cbn [map list_sum fold_right existsb]. fold (list_sum (map
    (fun y0 => if Z.eq_dec a y0 then 1%nat else 0%nat) Y)).
  rewrite IH.
  destruct (Z.eq_dec a y) as [->|Hne].
  - rewrite Z.eqb_refl. cbn [orb].
    destruct (existsb (Z.eqb y) Y) eqn:E; [|reflexivity].
    apply existsb_exists in E as (z & Hz & Heq).
    apply Z.eqb_eq in Heq. subst z. contradiction.
  - destruct (Z.eqb_spec a y); [contradiction|reflexivity].
Qed.

Lemma list_sum_counts (Y l : list Z) :
  NoDup Y ->
  list_sum (map (count_occ Z.eq_dec l) Y)
  = length (filter (fun a => existsb (Z.eqb a) Y) l).
Proof.
  intros Hnd. induction l as [|a l IH].
  - cbn [filter length]. induction Y as [|y Y IHY]; [reflexivity|].
    cbn. apply IHY. now inversion Hnd.
  - assert (Hsplit : list_sum (map (count_occ Z.eq_dec (a :: l)) Y)
                     = (list_sum (map (fun y => if Z.eq_dec a y
                                                then 1%nat else 0%nat) Y)
                        + list_sum (map (count_occ Z.eq_dec l) Y))%nat).
    { clear. induction Y as [|y Y IHY]; [reflexivity|].
      cbn [map list_sum fold_right].
      fold (list_sum (map (count_occ Z.eq_dec (a :: l)) Y)).
      fold (list_sum (map (fun y => if Z.eq_dec a y
                                    then 1%nat else 0%nat) Y)).
      fold (list_sum (map (count_occ Z.eq_dec l) Y)).
      rewrite IHY. cbn [count_occ]. destruct (Z.eq_dec a y); lia. }
    rewrite Hsplit, IH, list_sum_indicator by exact Hnd.
    cbn [filter]. destruct (existsb (Z.eqb a) Y); reflexivity.
Qed.

(** X16.  The records share out the rows: the trading days of the table add up
    to the number of rows whose year has at least ten rows, so no row is
    counted twice and the rows of a dropped year are counted nowhere. *)
Theorem trading_days_add_up (df : DataFrame) :
  well_formed df ->
  returns df <> None ->
  exists res,
    snd (analyze_volatility_by_year df) = inr res /\
    list_sum (map Trading_Days res)
    = length (filter (qualifies (index_years df)) (index_years df)) /\
    (list_sum (map Trading_Days res) <= len df)%nat.
Proof.
  intros Hwf Hr. destruct (returns df) as [r|] eqn:Er; [|contradiction].
  destruct (analyze_returns df r Hwf Er) as (res & Hres & Hy & Hall).
  exists res. split; [exact Hres|].
  assert (Hsum : list_sum (map Trading_Days res)
                 = length (filter (qualifies (index_years df)) (index_years df))).
  { rewrite (trading_days_of_records df res Hall), Hy.
    unfold trading_days at 1.
    rewrite list_sum_counts
      by apply ascending_NoDup, qualifying_years_ascending.
    f_equal. apply filter_ext_in. intros a Ha.
    destruct (qualifies (index_years df) a) eqn:Eq.
    - apply existsb_exists. exists a. split; [|apply Z.eqb_refl].
      apply qualifying_years_In. unfold qualifies in Eq. now apply Nat.leb_le.
    - destruct (existsb (Z.eqb a) (qualifying_years (index_years df))) eqn:Ex;
        [|reflexivity].
      apply existsb_exists in Ex as (z & Hz & Heq).
      apply Z.eqb_eq in Heq. subst z.
      apply qualifying_years_In in Hz. unfold qualifies in Eq.
      apply Nat.leb_gt in Eq. lia. }
  split; [exact Hsum|]. rewrite Hsum.
  etransitivity; [apply filter_length_le|].
  unfold index_years, len. now rewrite length_map.
Qed.

Lemma trading_days_add_up_witness :
  exists res,
    snd (analyze_volatility_by_year short_then_ten) = inr res /\
    list_sum (map Trading_Days res)
    = length (filter (qualifies (index_years short_then_ten))
                     (index_years short_then_ten)) /\
    (list_sum (map Trading_Days res) <= len short_then_ten)%nat.
Proof.
  apply (trading_days_add_up short_then_ten).
  - apply calculate_returns_well_formed.
  - discriminate.
Defined.

(** ** The data path of [main] *)

Lemma select_same_length {A B} (mask : list bool) (xs : list A) (ys : list B) :
  length xs = length ys ->
  length (select mask xs) = length (select mask ys).
Proof.
  revert xs ys; induction mask as [|b mask IH]; intros [|x xs] [|y ys] Hlen;
    try discriminate; try reflexivity.
  injection Hlen as Hlen. cbn [select].
  destruct b; cbn [length]; now rewrite (IH xs ys Hlen).
Qed.

Lemma restrict_years_of_bars (bars : list Bar) :
  restrict_years (frame_of bars)
  = frame_of (filter (fun b => in_2015_2025 (bar_time b)) bars).
Proof.
  unfold restrict_years, select_rows, frame_of.
  cbn [index open high low close returns year option_map].
  rewrite map_map. now rewrite !select_filter.
Qed.

(** X17.  Bars outside 2015 to 2025 have no part in the result: [main] computes
    the returns after the year filter, so on a series of bars its data
    path is the core run on the bars of those years alone.  The first
    bar of the range gets no return from the bar before it. *)
Theorem main_ignores_bars_outside_range (bars : list Bar) :
  main_data_path (frame_of bars)
  = analyze_volatility_by_year
      (calculate_returns
         (frame_of (filter (fun b => in_2015_2025 (bar_time b)) bars))).
Proof.
  unfold main_data_path. now rewrite restrict_years_of_bars.
Qed.

Lemma ascending_bounded_length (l : list Z) (lo hi : Z) :
  (lo <= hi + 1)%Z ->
  StronglySorted Z.lt l ->
  Forall (fun y => (lo <= y <= hi)%Z) l ->
  (Z.of_nat (length l) <= hi - lo + 1)%Z.
Proof.
  intros Hlo Hs. revert lo Hlo.
  induction Hs as [|x t Hs IH Hx]; intros lo Hlo Hb; [cbn; lia|].
  inversion Hb as [|? ? Hxb Htb]; subst.
  assert (Ht : Forall (fun y => (x + 1 <= y <= hi)%Z) t).
  { rewrite Forall_forall in Hx, Htb |- *. intros y Hy.
    specialize (Hx y Hy). specialize (Htb y Hy). lia. }
  specialize (IH (x + 1)%Z ltac:(lia) Ht).
  cbn [length]. lia.
Qed.

Lemma select_mask_In {A} (p : A -> bool) (l : list A) (x : A) :
  In x (select (map p l) l) -> p x = true.
Proof.
  rewrite <- (map_id l) at 2. rewrite select_filter, map_id.
  intros H. now apply filter_In in H.
Qed.

(** X18.  On a well-formed loaded table the data path of [main] ends normally,
    every year of its table lies in 2015 to 2025, and the table has at
    most eleven records. *)
Theorem main_table_is_within_range (df : DataFrame) :
  well_formed df ->
  exists res,
    snd (main_data_path df) = inr res /\
    Forall (fun y => (2015 <= y <= 2025)%Z) (map Year res) /\
    (length res <= 11)%nat.
Proof.
  intros (_ & _ & _ & Hclose & _).
  unfold main_data_path. cbv zeta.
  set (d := calculate_returns (restrict_years df)).
  destruct (year_loop_returns d
              (map np.log (zip_with fdiv (close d) (pd.shift (close d))))
              eq_refl) with (years := sorted (unique (index_years d)))
                            (results := @nil YearSummary)
    as (res & Hloop & Hy & _).
  { unfold d, calculate_returns, set_returns, restrict_years, select_rows.
    cbn [close index]. now apply select_same_length. }
  exists res. rewrite analyze_unfold. cbn [snd]. split; [exact Hloop|].
  assert (Hrange : Forall (fun y => (2015 <= y <= 2025)%Z) (map Year res)).
  { fold (qualifying_years (index_years d)) in Hy. rewrite Hy.
    apply Forall_forall. intros y Hin.
    apply qualifying_years_In in Hin.
    assert (Hy_in : In y (index_years d)).
    { apply qualifies_In. unfold qualifies. now apply Nat.leb_le. }
    unfold index_years, d, calculate_returns, set_returns, restrict_years,
      select_rows in Hy_in. cbn [index] in Hy_in.
    apply in_map_iff in Hy_in as (t & <- & Ht).
    apply select_mask_In in Ht. unfold in_2015_2025 in Ht.
    apply andb_true_iff in Ht as [H1 H2].
    apply Z.leb_le in H1. apply Z.leb_le in H2. lia. }
  split; [exact Hrange|].
  pose proof (ascending_bounded_length (map Year res) 2015 2025 ltac:(lia)) as Hb.
  rewrite length_map in Hb.
  assert (Hs : StronglySorted Z.lt (map Year res)).
  { fold (qualifying_years (index_years d)) in Hy. rewrite Hy.
    apply qualifying_years_ascending. }
  specialize (Hb Hs Hrange). lia.
Qed.

Lemma main_table_is_within_range_witness :
  exists res,
    snd (main_data_path (frame_of (days 2014 10 ++ days 2015 10))) = inr res /\
    Forall (fun y => (2015 <= y <= 2025)%Z) (map Year res) /\
    (length res <= 11)%nat.
Proof.
  apply (main_table_is_within_range (frame_of (days 2014 10 ++ days 2015 10))).
  unfold well_formed, frame_of. cbn [index open high low close returns year].
  rewrite !length_map. repeat split; try reflexivity; discriminate.
Defined.

(** ** The rolling volatility of the chart *)

Lemma nth_error_map_seq {A} (f : nat -> A) (n i : nat) :
  (i < n)%nat -> nth_error (map f (seq 0 n)) i = Some (f i).
Proof.
  intros Hi. rewrite nth_error_map, nth_error_seq.
  destruct (Nat.ltb_spec i n); [reflexivity|lia].
Qed.

Lemma log_returns_length (t : list R) (c0 : R) :
  length (log_returns c0 t) = length t.
Proof. apply adjacent_length. Qed.

(** A position of the rolling standard deviation over a column whose
    first value is missing and whose other values are real. *)
Lemma rolling_std_after_missing_head (w : nat) (xs : list R) (i : nat) :
  (2 <= w)%nat ->
  (i <= length xs)%nat ->
  nth_error (rolling_std w (NaN :: map Fin xs)) i
  = Some (if (w <=? i)%nat
          then Fin (sample_std (firstn w (skipn (i - w) xs)))
          else NaN).
Proof.
  intros Hw Hi. unfold rolling_std.
  rewrite nth_error_map_seq by (cbn [length]; rewrite length_map; lia).
  f_equal. unfold pd.window.
  replace (i + 1)%nat with (S i) by lia. cbn [firstn].
  destruct (Nat.leb_spec w i) as [Hle|Hgt].
  - replace (S i - w)%nat with (S (i - w)) by lia. cbn [skipn].
    rewrite firstn_map, skipn_map, dropna_map_Fin.
    assert (Hcomm : skipn (i - w) (firstn i xs) = firstn w (skipn (i - w) xs)).
    { rewrite firstn_skipn_comm. do 2 f_equal. lia. }
    rewrite Hcomm.
    assert (Hlen : length (firstn w (skipn (i - w) xs)) = w).
    { rewrite length_firstn, length_skipn. lia. }
    rewrite Hlen, Nat.leb_refl.
    rewrite std_sample_std by (rewrite dropna_map_Fin; lia).
    now rewrite dropna_map_Fin.
  - replace (S i - w)%nat with 0%nat by lia. cbn [skipn dropna].
    rewrite firstn_map, dropna_map_Fin.
    pose proof (firstn_le_length i xs) as Hf.
    destruct (Nat.leb_spec w (length (firstn i xs))); [lia|reflexivity].
Qed.

(** X19.  The rolling volatility on positive closes has one entry for each row.
    The first return is missing, so the first thirty entries are missing
    and the first value stands at the thirty-first row; from there on the
    entry is the sample standard deviation of the thirty log returns that
    end at the row, times [sqrt 252], times 100. *)
Theorem rolling_vol_starts_at_row_31 (df : DataFrame) (c0 : R) (t : list R) :
  close df = map Fin (c0 :: t) ->
  Forall (fun c => 0 < c) (c0 :: t) ->
  exists r,
    returns (calculate_returns df) = Some r /\
    length (rolling_vol r) = length (c0 :: t) /\
    (forall i, (i < 30)%nat -> (i < length (c0 :: t))%nat ->
               nth_error (rolling_vol r) i = Some NaN) /\
    (forall i, (30 <= i < length (c0 :: t))%nat ->
               nth_error (rolling_vol r) i
               = Some (Fin (sample_std
                              (firstn 30 (skipn (i - 30) (log_returns c0 t)))
                            * sqrt 252 * 100))).
Proof.
  intros Hc Hpos. eexists.
  split; [apply (returns_of_positive_closes df c0 t Hc Hpos)|].
  set (xs := log_returns c0 t).
  assert (Hxs : length xs = length t) by apply log_returns_length.
  split; [|split].
  - unfold rolling_vol, rolling_std.
    rewrite !length_map, length_seq. cbn [length]. now rewrite length_map, Hxs.
  - intros i Hi Hlen. cbn [length] in Hlen.
    unfold rolling_vol. rewrite nth_error_map.
    rewrite rolling_std_after_missing_head by lia.
    destruct (Nat.leb_spec 30 i); [lia|reflexivity].
  - intros i [Hi Hlen]. cbn [length] in Hlen.
    unfold rolling_vol. rewrite nth_error_map.
    rewrite rolling_std_after_missing_head by lia.
    destruct (Nat.leb_spec 30 i); [|lia].
    cbn [option_map]. rewrite sqrt_of_nonneg by lra. reflexivity.
Qed.

Lemma rolling_vol_starts_at_row_31_witness :
  exists r,
    returns (calculate_returns (frame_of (days 2021 31))) = Some r /\
    length (rolling_vol r) = length (105 :: repeat 105 30) /\
    (forall i, (i < 30)%nat -> (i < length (105 :: repeat 105 30))%nat ->
               nth_error (rolling_vol r) i = Some NaN) /\
    (forall i, (30 <= i < length (105 :: repeat 105 30))%nat ->
               nth_error (rolling_vol r) i
               = Some (Fin (sample_std
                              (firstn 30 (skipn (i - 30)
                                            (log_returns 105 (repeat 105 30))))
                            * sqrt 252 * 100))).
Proof.
  apply (rolling_vol_starts_at_row_31
           (frame_of (days 2021 31)) 105 (repeat 105 30)).
  - reflexivity.
  - cbn. repeat (constructor; [lra|]). constructor.
Defined.

(** ** How many returns a year has *)

Lemma select_map {A B} (g : A -> B) (mask : list bool) (l : list A) :
  select mask (map g l) = map g (select mask l).
Proof.
  revert l; induction mask as [|b mask IH]; intros [|x l]; try reflexivity.
  cbn [map select]. destruct b; cbn [map]; now rewrite IH.
Qed.

(** X20.  On positive closes every row but the first of the series has a return.
    So the returns window of a year holds one non-missing return for each
    of its rows, except that the year of the first row of the series holds
    one fewer: a first year of ten bars has nine returns. *)
Theorem returns_of_a_year_count (b0 : Bar) (t : list Bar) (y : Z) :
  Forall (fun b => 0 < bar_close b) (b0 :: t) ->
  let df := calculate_returns (frame_of (b0 :: t)) in
  exists w,
    returns (year_slice (with_years df) (index_years df) y) = Some w /\
    (length (dropna w)
     + (if (ts_year (bar_time b0) =? y)%Z then 1 else 0)
     = length (year_bars y (b0 :: t)))%nat.
Proof.
  intros Hpos df.
  set (ls := log_returns (bar_close b0) (map bar_close t)).
  assert (Hret : returns df = Some (NaN :: map Fin ls)).
  { apply returns_of_positive_closes.
    - unfold frame_of. cbn [close map]. now rewrite map_map.
    - change (bar_close b0 :: map bar_close t) with (map bar_close (b0 :: t)).
      apply Forall_forall. intros c Hc.
      apply in_map_iff in Hc as (b & <- & Hb).
      rewrite Forall_forall in Hpos. now apply Hpos. }
  eexists. split.
  - change (returns (year_slice (with_years df) (index_years df) y))
      with (option_map (select (map (fun z => (z =? y)%Z) (index_years df)))
                       (returns df)).
    rewrite Hret. reflexivity.
  - change (index_years df) with (map ts_year (map bar_time (b0 :: t))).
    cbn [map select year_bars filter].
    assert (Htail : length (dropna
                      (select (map (fun z => (z =? y)%Z)
                                   (map ts_year (map bar_time t)))
                              (map Fin ls)))
                    = length (year_bars y t)).
    { rewrite select_map, dropna_map_Fin.
      rewrite select_year_length.
      - apply trading_days_year_bars.
      - unfold ls. now rewrite log_returns_length, !length_map. }
    fold (year_bars y t).
    destruct (ts_year (bar_time b0) =? y)%Z; cbn [dropna length];
      rewrite Htail; lia.
Qed.

Lemma returns_of_a_year_count_witness :
  let df := calculate_returns (frame_of (first_of_2021 :: rest_of_2021)) in
  exists w,
    returns (year_slice (with_years df) (index_years df) 2021%Z) = Some w /\
    (length (dropna w)
     + (if (ts_year (bar_time first_of_2021) =? 2021)%Z then 1 else 0)
     = length (year_bars 2021 (first_of_2021 :: rest_of_2021)))%nat.
Proof.
  apply (returns_of_a_year_count first_of_2021 rest_of_2021 2021%Z).
  cbn. repeat (constructor; [cbn; lra|]). constructor.
Defined.

(** ** Closes that do not move *)

Lemma log_returns_of_constant (c : R) (k : nat) :
  0 < c -> log_returns c (repeat c k) = repeat 0 k.
Proof.
  intros Hc. unfold log_returns.
  induction k as [|k IH]; [reflexivity|].
  cbn [repeat adjacent]. rewrite IH. f_equal.
  replace (c / c) with 1 by (field; lra). apply ln_1.
Qed.

(** X7.  On a column of at least three closes that all have the same
    positive value every return after the first is exactly zero, and
    realized volatility over the column is exactly zero, annualized or
    not. *)
Theorem realized_volatility_of_constant_closes
    (df : DataFrame) (c : R) (n : nat) (annualize : bool) :
  close df = map Fin (repeat c n) ->
  0 < c ->
  (3 <= n)%nat ->
  exists r,
    returns (calculate_returns df) = Some r /\
    dropna r = repeat 0 (n - 1) /\
    calculate_realized_volatility r annualize = Fin 0.
Proof.
  intros Hclose Hc Hn.
  destruct n as [|k]; [lia|]. cbn [repeat] in Hclose.
  replace (S k - 1)%nat with k by lia.
  assert (Hpos : Forall (fun x => 0 < x) (c :: repeat c k)).
  { apply Forall_forall. intros x Hx.
    change (c :: repeat c k) with (repeat c (S k)) in Hx.
    apply repeat_spec in Hx. now subst. }
  eexists. split; [apply (returns_of_positive_closes df c _ Hclose Hpos)|].
  assert (Hdrop : dropna (NaN :: map Fin (log_returns c (repeat c k)))
                  = repeat 0 k).
  { cbn [dropna]. now rewrite dropna_map_Fin, log_returns_of_constant. }
  split; [exact Hdrop|].
  apply realized_volatility_of_zero_returns; rewrite Hdrop.
  - rewrite repeat_length. lia.
  - apply Forall_forall. intros x Hx. now apply repeat_spec in Hx.
Qed.

Lemma realized_volatility_of_constant_closes_witness :
  exists r,
    returns (calculate_returns loaded) = Some r /\
    dropna r = repeat 0 (10 - 1) /\
    calculate_realized_volatility r true = Fin 0.
Proof.
  apply (realized_volatility_of_constant_closes loaded 105 10 true).
  - reflexivity.
  - lra.
  - lia.
Defined.

(** ** Short years and the ATR field *)

(** C7, as stated, fails: the ten bars of 2021 in the sample series give a
    record, but the 14-row rolling mean of the year's true range has no
    valid value, so there is nothing to average and the ATR field of the
    record is missing. *)
Lemma ten_bar_year_has_no_atr_value :
  exists res m,
    snd (analyze_volatility_by_year short_then_ten) = inr res /\
    In m res /\
    Year m = 2021%Z /\
    Trading_Days m = 10%nat /\
    dropna (pd.rolling_mean 14
              (true_range (year_slice (with_years short_then_ten)
                             (index_years short_then_ten) 2021%Z))) = [] /\
    Avg_ATR m = NaN.
Proof.
  destruct (short_year_record short_then_ten 2021%Z)
    as (res & m & Hres & Hm & HY & Hdays & _ & Hnone & Hatr).
  - apply calculate_returns_well_formed.
  - discriminate.
  - vm_compute. lia.
  - exists res, m. repeat split; assumption.
Qed.

(** C7, amended.  A year with at least ten bars has its record, whatever
    its length, and the record counts the year's bars.  Its ATR field is
    the average true range of the year's bars, and that is the missing
    value exactly when the year has fewer than fourteen bars: a year of
    ten to thirteen bars keeps its record with a missing ATR, and the
    field is a number from fourteen bars on. *)
Theorem short_year_atr_is_missing (bars : list Bar) (y : Z) :
  (10 <= length (year_bars y bars))%nat ->
  exists res m,
    snd (analyze_volatility_by_year (calculate_returns (frame_of bars)))
      = inr res /\
    In m res /\
    Year m = y /\
    Trading_Days m = length (year_bars y bars) /\
    Avg_ATR m = average_true_range 14 (year_bars y bars) /\
    (Avg_ATR m = NaN <-> (length (year_bars y bars) < 14)%nat).
Proof.
  intros Hlen.
  destruct (record_of_year bars y Hlen) as (res & m & Hres & Hm & Hmet).
  exists res, m. split; [exact Hres|]. split; [exact Hm|].
  destruct (year_metrics_inv _ _ _ Hmet) as (HY & Hdays & _ & Hatr & _).
  destruct (year_slice_prices y bars) as (_ & Hh & Hl & Hc).
  split; [exact HY|]. split.
  { rewrite Hdays.
    rewrite (year_slice_len (calculate_returns (frame_of bars)) y
             : len (year_slice (with_years _) _ y) = _).
    apply trading_days_year_bars. }
  assert (Hval : Avg_ATR m = average_true_range 14 (year_bars y bars)).
  { rewrite Hatr, <- calculate_atr_of_bars by lia.
    now apply atr_reads_high_low_close. }
  split; [exact Hval|]. rewrite Hval. unfold average_true_range.
  pose proof (moving_averages_nil_iff 14 (true_ranges (year_bars y bars)))
    as Hnil.
  rewrite true_ranges_length in Hnil.
  destruct (moving_averages 14 (true_ranges (year_bars y bars))) as [|a ma].
  - split; [intros _; now apply Hnil|reflexivity].
  - split; [discriminate|]. intros Hshort. apply Hnil in Hshort. discriminate.
Qed.

Lemma short_year_atr_is_missing_witness :
  exists res m,
    snd (analyze_volatility_by_year
           (calculate_returns (frame_of (days 2020 9 ++ days 2021 10))))
      = inr res /\
    In m res /\
    Year m = 2021%Z /\
    Trading_Days m = length (year_bars 2021 (days 2020 9 ++ days 2021 10)) /\
    Avg_ATR m
      = average_true_range 14 (year_bars 2021 (days 2020 9 ++ days 2021 10)) /\
    (Avg_ATR m = NaN
     <-> (length (year_bars 2021 (days 2020 9 ++ days 2021 10)) < 14)%nat).
Proof.
  apply (short_year_atr_is_missing (days 2020 9 ++ days 2021 10) 2021%Z).
  vm_compute. lia.
Defined.
